(** * noexcept_benchmark: the result aggregation and the timing formula

    A shallow embedding of the benchmark drivers
    [src/noexcept_benchmark_main.cpp] (module [Main]) and
    [src/unnamed/part_000] (module [Part000]) and of the header
    [src/unnamed/part_001] (module [Header]).

    - a C++ [double] is an IEEE 754 binary64 value: [spec_float] with
      precision 53 and maximal exponent 1024, computed with the
      operations of [SpecFloat] (module [Double]);
    - an [unsigned] counter is a [Z] whose increment wraps modulo 2^32,
      an [unsigned short] wraps modulo 2^16, and a constant that
      initializes an [int] is converted modulo 2^32 ([to_int]);
    - what a function writes to [std::cout] is the list of the operands
      of its [<<] chain ([out_item]);
    - a counting [for] loop is the recursive function [for_loop];
    - a measured call returns, throws or ends the process ([measured]),
      and so a block and [main] run to their end or are terminated
      with what the console holds ([run]);
    - where C++ leaves a choice to the implementation, the order of
      evaluation of two arguments and the unwinding of the stack for an
      exception without handler, the choice is a parameter. *)

From Stdlib Require Import String Ascii.
From Stdlib Require Import ZArith List Bool Lia.
From Stdlib Require Import Floats.SpecFloat.
From Equations Require Import Equations.
From Equations.Prop Require Import Logic.
Import ListNotations.

Local Open Scope Z_scope.

(** ** IEEE 754 binary64 *)

Module Double.

Definition prec : Z := 53.
Definition emax : Z := 1024.

Definition double : Type := spec_float.

Definition valid (x : double) : bool := valid_binary prec emax x.

Definition add (x y : double) : double := SFadd prec emax x y.
Definition mul (x y : double) : double := SFmul prec emax x y.
Definition div (x y : double) : double := SFdiv prec emax x y.
Definition ltb (x y : double) : bool := SFltb x y.
Definition leb (x y : double) : bool := SFleb x y.

(** Conversion of an integer, as done for an integer operand of a
    floating-point operator (exact below 2^53). *)
Definition of_Z (z : Z) : double := binary_normalize prec emax z 0 false.

Definition zero : double := S754_zero false.

(** [std::numeric_limits<double>::infinity()] *)
Definition infinity : double := S754_infinity false.

(** [std::numeric_limits<double>::denorm_min()], that is 2^-1074. *)
Definition denorm_min : double := S754_finite false 1 (-1074).

Definition is_finite (x : double) : bool :=
  match x with
  | S754_zero _ | S754_finite _ _ _ => true
  | S754_infinity _ | S754_nan => false
  end.

Definition is_nan (x : double) : bool :=
  match x with
  | S754_nan => true
  | _ => false
  end.

(** [std::min(a, b)], which is [(b < a) ? b : a]. *)
Definition min (a b : double) : double := if ltb b a then b else a.

End Double.

Import Double.

(** ** Machine integers *)

(** [++n] on an [unsigned] (32 bits). *)
Definition uint_incr (n : Z) : Z := (n + 1) mod 2 ^ 32.

(** The conversion of an integer constant to a 32-bit [int], as the
    initialization of a [const int] does it. *)
Definition to_int (z : Z) : Z := (z + 2 ^ 31) mod 2 ^ 32 - 2 ^ 31.

(** [--n] on an [unsigned short] (16 bits). *)
Definition ushort_decr (n : Z) : Z := (n - 1) mod 2 ^ 16.

(** ** Console output *)

Inductive out_item : Type :=
| OStr (s : string)
| ODouble (d : double)
| OInt (z : Z)
| OFlush
| OEndl.

Definition nl : string := String (ascii_of_nat 10) EmptyString.
Definition tab : string := String (ascii_of_nat 9) EmptyString.

Local Notation "a +++ b" := (String.append a b) (at level 60, right associativity).

(** ** How a measurement and a run can end *)

(** A measured call returns a value and leaves the machine in a new
    state, or throws an exception, or ends the process: a failed
    assertion, [std::terminate], an exhausted stack. *)
Inductive measured (A M : Type) : Type :=
| Returns (a : A) (m : M)
| Throws
| Aborts.
Arguments Returns {A M} a m.
Arguments Throws {A M}.
Arguments Aborts {A M}.

(** How a call that does not return ends. *)
Inductive failure : Type :=
| Throw
| Abort.

(** The stopwatch is modelled for work that returns.  Work that does
    not, a recursion that exhausts the stack for one, ends the
    measurement the same way: [fails] tells on which machines the
    measurement [f] does not return, and how. *)
Definition unless {A M : Type} (fails : M -> option failure)
    (f : M -> A * M) (m : M) : measured A M :=
  match fails m with
  | Some Throw => Throws
  | Some Abort => Aborts
  | None => let '(a, m') := f m in Returns a m'
  end.

(** A block, or [main], runs to its end, or the process is ended
    before: then the console is all that is left.  Whatever the drivers
    print before a measurement ends with [std::flush] or [std::endl], so
    the console holds all that was printed. *)
Inductive run (M : Type) : Type :=
| Completed (m : M) (out : list out_item)
| Terminated (out : list out_item).
Arguments Completed {M} m out.
Arguments Terminated {M} out.

(** The loop of a block with its accumulator [result]: still running,
    or left by an exception, or ended with the process. *)
Inductive progress (M R : Type) : Type :=
| Running (m : M) (result : R) (out : list out_item)
| Unwinding (result : R) (out : list out_item)
| Ended (out : list out_item).
Arguments Running {M R} m result out.
Arguments Unwinding {M R} result out.
Arguments Ended {M R} out.

(** The order in which an implementation evaluates the two arguments
    of a call; C++ does not specify it. *)
Inductive arg_order : Type :=
| LeftToRight
| RightToLeft.

(** ** Counting loops *)

(** [for (int i = lo; i < hi; ++i) s = body(i, s);] *)
Equations? for_loop {S : Type} (i hi : Z) (body : Z -> S -> S) (s : S) : S
  by wf (Z.to_nat (hi - i)) lt :=
  for_loop i hi body s with inspect (i <? hi) => {
    | exist _ true _ => for_loop (i + 1) hi body (body i s)
    | exist _ false _ => s }.
Proof. apply Z.ltb_lt in e. lia. Qed.

(** ** What a recursive workload does *)

Inductive frame_event : Type :=
| Call (number_of_func_calls : Z)
| DummyCtor
| DummyDtor.

(** ** [src/unnamed/part_001]: the header [noexcept_benchmark.h] *)

Module Header.

(** The macros a build may define before the header is read. *)
Record build : Type := {
  NDEBUG : bool;
  defined_NUMBER_OF_ITERATIONS : option Z;
  defined_THROW_EXCEPTION : option Z
}.

(** A build that defines none of them. *)
Definition default_build : build := {|
  NDEBUG := false;
  defined_NUMBER_OF_ITERATIONS := None;
  defined_THROW_EXCEPTION := None
|}.

Definition NOEXCEPT_BENCHMARK_NUMBER_OF_ITERATIONS (b : build) : Z :=
  match defined_NUMBER_OF_ITERATIONS b with
  | Some v => v
  | None => 10
  end.

Definition NOEXCEPT_BENCHMARK_THROW_EXCEPTION (b : build) : Z :=
  match defined_THROW_EXCEPTION b with
  | Some v => v
  | None => 1
  end.

(** 3612059050.0, 1e9 and 1000 are integers below 2^53: [of_Z] is exact. *)
Definition cpu_frequency : double := of_Z 3612059050.
Definition cpu : Z := 0.
Definition loopsize : Z := 1000.
Definition minimum_of : Z := 3.
Definition nk : Z := 3.

(** How a call ends; [W] is whatever state the program has. *)
Inductive outcome (W : Type) : Type :=
| Returned (w : W)
| AssertionFailed
| Thrown (w : W).
Arguments Returned {W} w.
Arguments AssertionFailed {W}.
Arguments Thrown {W} w.

(** The operand of the [assert] is [!"..."], which is [false]: the
    assertion fails whenever it is compiled in and reached. *)
Definition throw_exception_if {W : Type} (b : build)
    (do_throw_exception : bool) (w : W) : outcome W :=
  if do_throw_exception then
    if negb (NDEBUG b) then AssertionFailed
    else if negb (NOEXCEPT_BENCHMARK_THROW_EXCEPTION b =? 0) then Thrown w
    else Returned w
  else Returned w.

Section Stopwatch.

(** The machine the measured code runs on, and its cycle counter. *)
Context {M : Type} (clock : M -> Z).

(** Modelled from the spec: [benchmark::Stopwatch::measure] of
    cwds/benchmark.h, which is not among the sources.  One sample is
    the cycle count of an inner loop of [loopsize] executions of the
    work. *)
Definition sample (loopsize : Z) (functor : M -> M) (m : M) : Z * M :=
  let start := clock m in
  let m' := for_loop 0 loopsize (fun _ m => functor m) m in
  (clock m' - start, m').

(** Modelled from the spec: of the samples taken so far the stopwatch
    keeps the smallest. *)
Definition keep_smallest (best : option Z) (cycles : Z) : option Z :=
  match best with
  | Some c => Some (Z.min c cycles)
  | None => Some cycles
  end.

(** Modelled from the spec: [benchmark::Stopwatch::measure] of
    cwds/benchmark.h, which is not among the sources.  It takes
    [minimum_of] samples and keeps the smallest one.  The spec gives
    the bucket count [nk] no role, and says nothing of a measurement
    without samples, which is zero here. *)
Definition measure (nk loopsize : Z) (functor : M -> M) (minimum_of : Z)
    (m : M) : double * M :=
  let '(best, m') :=
    for_loop 0 minimum_of
      (fun _ '(best, m) =>
         let '(cycles, m') := sample loopsize functor m in
         (keep_smallest best cycles, m'))
      (None, m) in
  (match best with Some c => of_Z c | None => zero end, m').

(** The two [asm volatile ("")] statements around [func()] are
    compiler barriers; they execute nothing. *)
Definition profile_func_call (func : M -> M) (m : M) : double * M :=
  let '(result, m') := measure nk loopsize (fun m => func m) minimum_of m in
  (div (mul (div result cpu_frequency) (of_Z 1000000000)) (of_Z loopsize),
   m').

End Stopwatch.

End Header.

Import Header.

(** ** [src/noexcept_benchmark_main.cpp] *)

Module Main.

Definition max_number_of_times : Z := 4.

Record test_result : Type := {
  number_of_times_noexcept_is_faster : Z;
  number_of_times_implicit_is_faster : Z;
  sum_of_durations_noexcept : double;
  sum_of_durations_implicit : double
}.

(** The default member initializers. *)
Definition test_result_init : test_result := {|
  number_of_times_noexcept_is_faster := 0;
  number_of_times_implicit_is_faster := 0;
  sum_of_durations_noexcept := zero;
  sum_of_durations_implicit := zero
|}.

(** The string is kept as its three parts: the text of
    [std::to_string(seconds)] is not modelled. *)
Definition duration_seconds_to_string (seconds : double) : list out_item :=
  [OStr (tab +++ "Duration = "); ODouble seconds; OStr " sec. "].

Definition print_durations (durations : double * double) : list out_item :=
  duration_seconds_to_string (fst durations)
  ++ [OStr ("(explicitly defined 'noexcept')" +++ nl)]
  ++ duration_seconds_to_string (snd durations)
  ++ [OStr ("(implicitly defined exception specification)" +++ nl); OFlush].

Definition update_test_result (result : test_result)
    (durations : double * double) : test_result :=
  let sn := add (sum_of_durations_noexcept result) (fst durations) in
  let si := add (sum_of_durations_implicit result) (snd durations) in
  let cn := if ltb (fst durations) (snd durations)
            then uint_incr (number_of_times_noexcept_is_faster result)
            else number_of_times_noexcept_is_faster result in
  let ci := if ltb (snd durations) (fst durations)
            then uint_incr (number_of_times_implicit_is_faster result)
            else number_of_times_implicit_is_faster result in
  {| number_of_times_noexcept_is_faster := cn;
     number_of_times_implicit_is_faster := ci;
     sum_of_durations_noexcept := sn;
     sum_of_durations_implicit := si |}.

Definition divide_by_positive (x y : double) : double :=
  div x (if ltb zero y then y else denorm_min).

Definition print_conclusion (result : test_result) : list out_item :=
  (if number_of_times_noexcept_is_faster result =? max_number_of_times
   then [OStr "So for this test case, 'noexcept' seems approximately ";
         ODouble (divide_by_positive (sum_of_durations_implicit result)
                                     (sum_of_durations_noexcept result));
         OStr " x faster."]
   else if number_of_times_implicit_is_faster result =? max_number_of_times
   then [OStr "So for this test case, an implicitly defined exception specification seems approximately ";
         ODouble (divide_by_positive (sum_of_durations_noexcept result)
                                     (sum_of_durations_implicit result));
         OStr " x faster."]
   else [OStr "So for this test case, it seems unclear whether 'noexcept' or implicit is faster."])
  ++ [OEndl].

(** [recursive_func<T>]: the dummy is constructed in every call,
    before the decremented count is tested, and destroyed when the
    call returns. *)
Equations? recursive_func (numberOfFuncCalls : Z) : list frame_event
  by wf (Z.to_nat (ushort_decr numberOfFuncCalls)) lt :=
  recursive_func n with inspect (0 <? ushort_decr n) => {
    | exist _ true _ =>
        [Call n; DummyCtor] ++ recursive_func (ushort_decr n) ++ [DummyDtor]
    | exist _ false _ => [Call n; DummyCtor; DummyDtor] }.
Proof.
  apply Z.ltb_lt in e. unfold ushort_decr in *.
  pose proof (Z.mod_pos_bound (n - 1) (2 ^ 16) eq_refl).
  rewrite (Z.mod_small ((n - 1) mod 2 ^ 16 - 1)) by lia.
  lia.
Qed.

Section Driver.

Context {M : Type} (clock : M -> Z).

(** The two calls of [profile_func_call] are the arguments of
    [std::make_pair]: the implementation evaluates them in the order
    [order].  The first member of the pair is the duration of [func1]
    in either case. *)
Definition profile_func_calls (order : arg_order) (func1 func2 : M -> M)
    (m : M) : (double * double) * M :=
  match order with
  | LeftToRight =>
      let '(d1, m1) := profile_func_call clock func1 m in
      let '(d2, m2) := profile_func_call clock func2 m1 in
      ((d1, d2), m2)
  | RightToLeft =>
      let '(d2, m1) := profile_func_call clock func2 m in
      let '(d1, m2) := profile_func_call clock func1 m1 in
      ((d1, d2), m2)
  end.

(** One block of [main]: the header line, the loop of trials and
    the conclusion.  [measure_pair] is the expression that
    initializes [durations]; when it throws, the exception leaves the
    loop, the block and [main], which has no handler, and the process
    is terminated; [result] has no destructor that prints. *)
Definition test_case (header : list out_item)
    (measure_pair : M -> measured (double * double) M)
    (st : M * list out_item) : run M :=
  let '(m, out) := st in
  let result := test_result_init in
  let out := out ++ header in
  match
    for_loop 0 max_number_of_times
      (fun numberOfTimes p =>
         match p with
         | Running m result out =>
             match measure_pair m with
             | Returns durations m =>
                 let out := out ++ print_durations durations in
                 let result := update_test_result result durations in
                 Running m result out
             | Throws => Unwinding result out
             | Aborts => Ended out
             end
         | _ => p
         end)
      (Running m result out)
  with
  | Running m result out => Completed m (out ++ print_conclusion result)
  | Unwinding _ out => Terminated out
  | Ended out => Terminated out
  end.

(** The library functions, which may not return; the measured
    lambdas, as effects on the machine, and the machines on which
    their measurement does not return; the order of evaluation at each
    call of [std::make_pair]; the macros that only appear in the
    header lines. *)
Variables noexcept_test_inline_func implicit_test_inline_func
          noexcept_test_vector_reserve implicit_test_vector_reserve
  : M -> measured double M.
Variables noexcept_recursive_calls implicit_recursive_calls
          noexcept_exported_calls implicit_exported_calls : M -> M.
Variables recursive_calls_fail exported_calls_fail : M -> option failure.
Variables order_inline order_recursive order_exported order_vector
  : M -> arg_order.
Variables NUMBER_OF_INLINE_FUNC_CALLS NUMBER_OF_RECURSIVE_FUNC_CALLS
          NUMBER_OF_EXPORTED_FUNC_CALLS INITIAL_VECTOR_SIZE : Z.

(** [std::make_pair(f(), g())]: the two calls in the order [order];
    the second one is not made when the first one does not return. *)
Definition make_pair (order : arg_order) (f g : M -> measured double M)
    (m : M) : measured (double * double) M :=
  match order with
  | LeftToRight =>
      match f m with
      | Returns d1 m1 =>
          match g m1 with
          | Returns d2 m2 => Returns (d1, d2) m2
          | Throws => Throws
          | Aborts => Aborts
          end
      | Throws => Throws
      | Aborts => Aborts
      end
  | RightToLeft =>
      match g m with
      | Returns d2 m1 =>
          match f m1 with
          | Returns d1 m2 => Returns (d1, d2) m2
          | Throws => Throws
          | Aborts => Aborts
          end
      | Throws => Throws
      | Aborts => Aborts
      end
  end.

(** A block, and then the rest of [main], unless the process has
    been ended. *)
Definition and_then (block : run M) (rest : M * list out_item -> run M)
    : run M :=
  match block with
  | Completed m out => rest (m, out)
  | Terminated out => Terminated out
  end.

(** [main], after the lines that describe the build. *)
Definition main (st : M * list out_item) : run M :=
  and_then
    (test_case
       [OStr (nl +++ "[test_inline_func (N = ");
        OInt NUMBER_OF_INLINE_FUNC_CALLS; OStr ")]"; OEndl]
       (fun m => make_pair (order_inline m) noexcept_test_inline_func
                           implicit_test_inline_func m)
       st)
  (fun st =>
  and_then
    (test_case
       [OStr (nl +++ "[recursive_func (N = ");
        OInt NUMBER_OF_RECURSIVE_FUNC_CALLS; OStr ")]"; OEndl]
       (fun m => unless recursive_calls_fail
                   (profile_func_calls (order_recursive m)
                      noexcept_recursive_calls implicit_recursive_calls) m)
       st)
  (fun st =>
  and_then
    (test_case
       [OStr (nl +++ "[exported_func(false) calls (N = ");
        OInt NUMBER_OF_EXPORTED_FUNC_CALLS; OStr ")]"; OEndl]
       (fun m => unless exported_calls_fail
                   (profile_func_calls (order_exported m)
                      noexcept_exported_calls implicit_exported_calls) m)
       st)
  (fun st =>
  test_case
    [OStr (nl +++ "[test_vector_reserve (N = ");
     OInt INITIAL_VECTOR_SIZE; OStr ")]"; OEndl]
    (fun m => make_pair (order_vector m) noexcept_test_vector_reserve
                        implicit_test_vector_reserve m)
    st))).

End Driver.

End Main.

(** ** [src/unnamed/part_000] *)

Module Part000.

(** [const int number_of_iterations =
    NOEXCEPT_BENCHMARK_NUMBER_OF_ITERATIONS;] *)
Definition number_of_iterations (b : build) : Z :=
  to_int (NOEXCEPT_BENCHMARK_NUMBER_OF_ITERATIONS b).

Record durations_type : Type := {
  duration_noexcept : double;
  duration_implicit : double
}.

Definition divide_by_positive (x y : double) : double :=
  div x (if ltb zero y then y else denorm_min).

(** [noexcept_test::recursive_func] and
    [implicit_except_test::recursive_func] have the same body: the
    dummy is constructed only when the function recurses. *)
Equations? recursive_func (number_of_func_calls : Z) : list frame_event
  by wf (Z.to_nat (ushort_decr number_of_func_calls)) lt :=
  recursive_func n with inspect (0 <? ushort_decr n) => {
    | exist _ true _ =>
        [Call n; DummyCtor] ++ recursive_func (ushort_decr n) ++ [DummyDtor]
    | exist _ false _ => [Call n] }.
Proof.
  apply Z.ltb_lt in e. unfold ushort_decr in *.
  pose proof (Z.mod_pos_bound (n - 1) (2 ^ 16) eq_refl).
  rewrite (Z.mod_small ((n - 1) mod 2 ^ 16 - 1)) by lia.
  lia.
Qed.

(** [recursive_func_template<number_of_func_calls>], the same in both
    namespaces: the instance for a positive count constructs a dummy
    and calls the instance below it; the specialization for 0 has an
    empty body.  The count is a template argument, known when the
    program is compiled. *)
Fixpoint recursive_func_template (number_of_func_calls : nat)
    : list frame_event :=
  match number_of_func_calls with
  | O => [Call 0]
  | S n =>
      [Call (Z.of_nat (S n)); DummyCtor]
      ++ recursive_func_template n ++ [DummyDtor]
  end.

(** The data members of [test_result<N>]. *)
Record test_result : Type := {
  m_number_of_times_noexcept_is_faster : Z;
  m_number_of_times_implicit_is_faster : Z;
  m_sum_of_durations_noexcept : double;
  m_sum_of_durations_implicit : double;
  m_shortest_duration_noexcept : double;
  m_shortest_duration_implicit : double;
  m_test_case_name : string
}.

(** The constructor: the members as initialized, and what it prints. *)
Definition test_result_ctor (N : Z) (test_case_name : string)
    : test_result * list out_item :=
  ({| m_number_of_times_noexcept_is_faster := 0;
      m_number_of_times_implicit_is_faster := 0;
      m_sum_of_durations_noexcept := zero;
      m_sum_of_durations_implicit := zero;
      m_shortest_duration_noexcept := infinity;
      m_shortest_duration_implicit := infinity;
      m_test_case_name := test_case_name |},
   [OStr (nl +++ "["); OStr test_case_name; OStr " (N = "; OInt N;
    OStr (")]" +++ nl +++ "  noexcept " +++ tab +++ " implicit"); OFlush]).

Definition update_test_result (this : test_result)
    (durations : durations_type) : test_result :=
  let sn := add (m_sum_of_durations_noexcept this)
                (duration_noexcept durations) in
  let si := add (m_sum_of_durations_implicit this)
                (duration_implicit durations) in
  let mn := min (m_shortest_duration_noexcept this)
                (duration_noexcept durations) in
  let mi := min (m_shortest_duration_implicit this)
                (duration_implicit durations) in
  let cn := if ltb (duration_noexcept durations) (duration_implicit durations)
            then uint_incr (m_number_of_times_noexcept_is_faster this)
            else m_number_of_times_noexcept_is_faster this in
  let ci := if ltb (duration_implicit durations) (duration_noexcept durations)
            then uint_incr (m_number_of_times_implicit_is_faster this)
            else m_number_of_times_implicit_is_faster this in
  {| m_number_of_times_noexcept_is_faster := cn;
     m_number_of_times_implicit_is_faster := ci;
     m_sum_of_durations_noexcept := sn;
     m_sum_of_durations_implicit := si;
     m_shortest_duration_noexcept := mn;
     m_shortest_duration_implicit := mi;
     m_test_case_name := m_test_case_name this |}.

(** The destructor: what it prints. *)
Definition test_result_dtor (this : test_result) : list out_item :=
  [OStr (nl +++ "Shortest duration: ");
   ODouble (m_shortest_duration_noexcept this);
   OStr " sec. (explicit 'noexcept')";
   OStr (nl +++ "Shortest duration: ");
   ODouble (m_shortest_duration_implicit this);
   OStr " sec. (implicit exception specification)";
   OStr (nl +++ "Sum of durations: ");
   ODouble (m_sum_of_durations_noexcept this);
   OStr " sec. (explicit 'noexcept')";
   OStr (nl +++ "Sum of durations: ");
   ODouble (m_sum_of_durations_implicit this);
   OStr " sec. (implicit exception specification)";
   OStr (nl +++ "Ratio sum of durations noexcept/implicit: ");
   ODouble (divide_by_positive (m_sum_of_durations_noexcept this)
                               (m_sum_of_durations_implicit this));
   OStr (nl +++ "Ratio sum of durations implicit/noexcept: ");
   ODouble (divide_by_positive (m_sum_of_durations_implicit this)
                               (m_sum_of_durations_noexcept this));
   OStr (if m_number_of_times_implicit_is_faster this =? 0
         then nl +++ "In this case, 'noexcept' specifications always appear faster."
         else EmptyString);
   OStr (if m_number_of_times_noexcept_is_faster this =? 0
         then nl +++ "In this case, implicit exception specifications always appear faster."
         else EmptyString);
   OStr (if (0 <? m_number_of_times_noexcept_is_faster this)
            && (0 <? m_number_of_times_implicit_is_faster this)
         then nl +++ "In this case, neither implicit nor noexcept specifications always appear faster."
         else EmptyString);
   OEndl].

(** The part of [print_durations_and_update_test_result] that prints. *)
Definition print_durations (durations : durations_type) : list out_item :=
  [OStr (nl +++ "  "); ODouble (duration_noexcept durations);
   OStr (" " +++ tab +++ " "); ODouble (duration_implicit durations);
   OFlush].

(** [print_durations_and_update_test_result]: what it prints, and the
    accumulator it leaves. *)
Definition print_durations_and_update_test_result
    (durations : durations_type) (result : test_result)
    : test_result * list out_item :=
  (update_test_result result durations, print_durations durations).

Section Driver.

Context {M : Type} (clock : M -> Z).

(** Whether the implementation unwinds the stack, and so destroys
    [result], when an exception finds no handler, before it calls
    [std::terminate]: C++ leaves it to the implementation. *)
Variable unwinds : bool.

Variable b : build.

Definition profile_func_calls (func1 func2 : M -> M) (m : M)
    : durations_type * M :=
  let '(d1, m1) := profile_func_call clock func1 m in
  let '(d2, m2) := profile_func_call clock func2 m1 in
  ({| duration_noexcept := d1; duration_implicit := d2 |}, m2).

(** One block of [main]: the declaration of [result], whose
    constructor prints the header, the loop of trials, and the end of
    the block, where [result] is destroyed and its destructor prints
    the summary.  [measure_pair] is what the loop body does to obtain
    [durations].  When it throws, the exception leaves the loop, the
    block and [main], which has no handler: the process is terminated,
    after the destruction of [result] if the implementation unwinds.
    When it ends the process, nothing more is run. *)
Definition test_case (N : Z) (test_case_name : string)
    (measure_pair : M -> measured durations_type M)
    (st : M * list out_item) : run M :=
  let '(m, out) := st in
  let '(result, printed) := test_result_ctor N test_case_name in
  let out := out ++ printed in
  match
    for_loop 0 (number_of_iterations b)
      (fun iteration_number p =>
         match p with
         | Running m result out =>
             match measure_pair m with
             | Returns durations m =>
                 let '(result, printed) :=
                   print_durations_and_update_test_result durations result in
                 Running m result (out ++ printed)
             | Throws => Unwinding result out
             | Aborts => Ended out
             end
         | _ => p
         end)
      (Running m result out)
  with
  | Running m result out => Completed m (out ++ test_result_dtor result)
  | Unwinding result out =>
      Terminated (if unwinds then out ++ test_result_dtor result else out)
  | Ended out => Terminated out
  end.

(** The library functions, which may not return; the measured
    lambdas, as effects on the machine, and the machines on which
    their measurement does not return; the macros that give the [N] of
    each case. *)
Variables noexcept_test_inline_func implicit_test_inline_func
          noexcept_test_vector_reserve implicit_test_vector_reserve
  : M -> measured double M.
Variables noexcept_exported_calls implicit_exported_calls
          noexcept_recursive_calls implicit_recursive_calls
          noexcept_template_calls implicit_template_calls : M -> M.
Variables exported_calls_fail recursive_calls_fail template_calls_fail
  : M -> option failure.
Variables NUMBER_OF_INLINE_FUNC_CALLS NUMBER_OF_EXPORTED_FUNC_CALLS
          NUMBER_OF_RECURSIVE_FUNC_CALLS
          NUMBER_OF_RECURSIVE_FUNC_TEMPLATE_CALLS INITIAL_VECTOR_SIZE : Z.

(** The two assignments to the members of [durations], one statement
    after the other; the second call is not made when the first one
    does not return. *)
Definition assign_durations (f g : M -> measured double M) (m : M)
    : measured durations_type M :=
  match f m with
  | Returns d1 m1 =>
      match g m1 with
      | Returns d2 m2 =>
          Returns {| duration_noexcept := d1; duration_implicit := d2 |} m2
      | Throws => Throws
      | Aborts => Aborts
      end
  | Throws => Throws
  | Aborts => Aborts
  end.

(** A block, and then the rest of [main], unless the process has
    been ended. *)
Definition and_then (block : run M) (rest : M * list out_item -> run M)
    : run M :=
  match block with
  | Completed m out => rest (m, out)
  | Terminated out => Terminated out
  end.

(** [main], after the lines that describe the build. *)
Definition main (st : M * list out_item) : run M :=
  and_then
    (test_case NUMBER_OF_INLINE_FUNC_CALLS "inline function calls"
       (assign_durations noexcept_test_inline_func
                         implicit_test_inline_func) st)
  (fun st =>
  and_then
    (test_case NUMBER_OF_EXPORTED_FUNC_CALLS
       "exported library function calls"
       (unless exported_calls_fail
          (profile_func_calls noexcept_exported_calls
                              implicit_exported_calls)) st)
  (fun st =>
  and_then
    (test_case NUMBER_OF_RECURSIVE_FUNC_CALLS "recursive function calls"
       (unless recursive_calls_fail
          (profile_func_calls noexcept_recursive_calls
                              implicit_recursive_calls)) st)
  (fun st =>
  and_then
    (test_case NUMBER_OF_RECURSIVE_FUNC_TEMPLATE_CALLS "template recursion"
       (unless template_calls_fail
          (profile_func_calls noexcept_template_calls
                              implicit_template_calls)) st)
  (fun st =>
  and_then
    (test_case INITIAL_VECTOR_SIZE "std::vector<my_string> reserve"
       (assign_durations noexcept_test_vector_reserve
                         implicit_test_vector_reserve) st)
  (fun '(m, out) =>
     let out := for_loop 0 80 (fun i out => out ++ [OStr "="]) out in
     Completed m (out ++ [OEndl])))))).

End Driver.

End Part000.

(** * Vocabulary of the properties *)

(** A trial is the pair of its noexcept and its implicit duration. *)
Definition trial : Type := double * double.

Definition noexcept_wins (t : trial) : bool := ltb (fst t) (snd t).
Definition implicit_wins (t : trial) : bool := ltb (snd t) (fst t).
Definition is_tie (t : trial) : bool :=
  negb (noexcept_wins t) && negb (implicit_wins t).

Definition count_of (p : trial -> bool) (ts : list trial) : Z :=
  Z.of_nat (length (filter p ts)).

Definition trial_of (d : Part000.durations_type) : trial :=
  (Part000.duration_noexcept d, Part000.duration_implicit d).

(** The two counters of an accumulator, and what a trial does to them. *)
Definition main_counters (r : Main.test_result) : Z * Z :=
  (Main.number_of_times_noexcept_is_faster r,
   Main.number_of_times_implicit_is_faster r).

Definition part000_counters (r : Part000.test_result) : Z * Z :=
  (Part000.m_number_of_times_noexcept_is_faster r,
   Part000.m_number_of_times_implicit_is_faster r).

Definition count_trial (c : Z * Z) (t : trial) : Z * Z :=
  (if noexcept_wins t then uint_incr (fst c) else fst c,
   if implicit_wins t then uint_incr (snd c) else snd c).

(** The function calls and the dummy objects of a recursive workload. *)
Definition is_call (e : frame_event) : bool :=
  match e with Call _ => true | _ => false end.
Definition is_ctor (e : frame_event) : bool :=
  match e with DummyCtor => true | _ => false end.
Definition calls (tr : list frame_event) : Z :=
  Z.of_nat (length (filter is_call tr)).
Definition dummies (tr : list frame_event) : Z :=
  Z.of_nat (length (filter is_ctor tr)).

(** How a sequence of measurements stopped: all of them returned, or
    one threw, or one ended the process. *)
Inductive stopped (M : Type) : Type :=
| AllReturned (m : M)
| ByThrow
| ByAbort.
Arguments AllReturned {M} m.
Arguments ByThrow {M}.
Arguments ByAbort {M}.

(** Up to [n] paired measurements made one after the other, until one
    does not return: the durations of those that returned, and how the
    sequence stopped. *)
Fixpoint measure_until {M D : Type} (measure_pair : M -> measured D M)
    (n : nat) (m : M) : list D * stopped M :=
  match n with
  | O => ([], AllReturned m)
  | S n =>
      match measure_pair m with
      | Returns d m1 =>
          let '(ds, how) := measure_until measure_pair n m1 in
          (d :: ds, how)
      | Throws => ([], ByThrow)
      | Aborts => ([], ByAbort)
      end
  end.

(** The number of [std::endl] in an output; of the items part_000
    prints for a test case only the summary has one, its last item. *)
Definition is_endl (o : out_item) : bool :=
  match o with OEndl => true | _ => false end.
Definition count_endl (out : list out_item) : nat :=
  length (filter is_endl out).

(** 2^-50, from which on a quotient by [denorm_min] overflows. *)
Definition two_pow_m50 : double := S754_finite false 4503599627370496 (-102).

(** The three conclusions [print_conclusion] can print. *)
Definition says_noexcept_faster (ratio : double) : list out_item :=
  [OStr "So for this test case, 'noexcept' seems approximately ";
   ODouble ratio; OStr " x faster."; OEndl].

Definition says_implicit_faster (ratio : double) : list out_item :=
  [OStr "So for this test case, an implicitly defined exception specification seems approximately ";
   ODouble ratio; OStr " x faster."; OEndl].

Definition says_unclear : list out_item :=
  [OStr "So for this test case, it seems unclear whether 'noexcept' or implicit is faster.";
   OEndl].

(** The three sentences that can end the summary of [~test_result]. *)
Definition noexcept_always_faster : string :=
  nl +++ "In this case, 'noexcept' specifications always appear faster.".

Definition implicit_always_faster : string :=
  nl +++ "In this case, implicit exception specifications always appear faster.".

Definition neither_always_faster : string :=
  nl +++ "In this case, neither implicit nor noexcept specifications always appear faster.".

(** The summary of [~test_result]: after the sixteen items of the
    durations and the ratios come the three verdict items and the end
    of the line; the ratios are items 13 and 15. *)
Definition summary_verdict (out : list out_item) : list out_item :=
  skipn 16 out.
Definition summary_ratio_noexcept_implicit (out : list out_item)
    : option out_item := nth_error out 13.
Definition summary_ratio_implicit_noexcept (out : list out_item)
    : option out_item := nth_error out 15.

Definition durations_of (t : trial) : Part000.durations_type :=
  {| Part000.duration_noexcept := fst t; Part000.duration_implicit := snd t |}.

(** The trials (5.0, 7.0), (4.0, 6.0), (3.0, 9.0). *)
Definition scenario : list trial :=
  [(of_Z 5, of_Z 7); (of_Z 4, of_Z 6); (of_Z 3, of_Z 9)].

(** [k] nested calls that each construct a dummy, with the counts
    [lo + k], ..., [lo + 1]. *)
Fixpoint frames (k : nat) (lo : Z) : list frame_event :=
  match k with
  | O => []
  | S k' => [Call (lo + Z.of_nat (S k')); DummyCtor] ++ frames k' lo
  end.

(** [0 <= x]: a zero, a positive finite double or +infinity; not a NaN. *)
Definition nonneg (x : double) : bool := leb zero x.

(** What a block of noexcept_benchmark_main.cpp prints for the trials
    [ds]: its header, the trials, its conclusion. *)
Definition main_block (header : list out_item) (ds : list trial)
    : list out_item :=
  header ++ flat_map Main.print_durations ds
  ++ Main.print_conclusion
       (fold_left Main.update_test_result ds Main.test_result_init).

(** What a block of part_000 prints for the trials [ds]: the header
    of the constructor, the trials, the summary of the destructor. *)
Definition part000_block (N : Z) (name : string)
    (ds : list Part000.durations_type) : list out_item :=
  snd (Part000.test_result_ctor N name)
  ++ flat_map Part000.print_durations ds
  ++ Part000.test_result_dtor
       (fold_left Part000.update_test_result ds
                  (fst (Part000.test_result_ctor N name))).

(** What a block of noexcept_benchmark_main.cpp has printed when a
    measurement does not return: its header and the trials before. *)
Definition main_block_cut (header : list out_item) (ds : list trial)
    : list out_item :=
  header ++ flat_map Main.print_durations ds.

(** What a block of part_000 has printed when a measurement does not
    return: the header of the constructor and the trials before; and,
    when [summary] says that [result] is destroyed on the way out, its
    summary. *)
Definition part000_block_cut (summary : bool) (N : Z) (name : string)
    (ds : list Part000.durations_type) : list out_item :=
  if summary then part000_block N name ds
  else snd (Part000.test_result_ctor N name)
       ++ flat_map Part000.print_durations ds.

(** Whether the destructor of [result] runs when the loop of a block is
    left in the way [how]: at the end of the block; after an exception,
    if the implementation unwinds; not when the process is ended. *)
Definition destroys {M : Type} (unwinds : bool) (how : stopped M) : bool :=
  match how with
  | AllReturned _ => true
  | ByThrow => unwinds
  | ByAbort => false
  end.

(** * Properties *)

(** ** Loops *)

Lemma for_loop_step {S : Type} (i hi : Z) (body : Z -> S -> S) (s : S) :
  for_loop i hi body s =
  if i <? hi then for_loop (i + 1) hi body (body i s) else s.
Proof.
  rewrite for_loop_equation_1. unfold for_loop_unfold_clause_1.
  destruct (inspect (i <? hi)) as [[] Heq]; simpl; rewrite Heq; reflexivity.
Qed.


(** A loop over [a, a + n) runs its body once for each index, in order. *)
Lemma for_loop_fold {St : Type} (body : Z -> St -> St) (n : nat) :
  forall (a : nat) (s : St),
    for_loop (Z.of_nat a) (Z.of_nat (a + n)) body s =
    fold_left (fun s k => body (Z.of_nat k) s) (seq a n) s.
Proof.
  induction n as [|n IH]; intros a s; rewrite for_loop_step.
  - replace (Z.of_nat a <? Z.of_nat (a + 0)) with false
      by (symmetry; apply Z.ltb_ge; lia).
    reflexivity.
  - replace (Z.of_nat a <? Z.of_nat (a + S n)) with true
      by (symmetry; apply Z.ltb_lt; lia).
    replace (Z.of_nat a + 1) with (Z.of_nat (S a)) by lia.
    replace (a + S n)%nat with (S a + n)%nat by lia.
    rewrite IH. reflexivity.
Qed.

(** A loop whose bound is not above its start does nothing. *)
Lemma for_loop_empty {St : Type} (body : Z -> St -> St) (i hi : Z) (s : St) :
  hi <= i -> for_loop i hi body s = s.
Proof.
  intros H. rewrite for_loop_step.
  replace (i <? hi) with false by (symmetry; apply Z.ltb_ge; lia).
  reflexivity.
Qed.

(** A loop from 0 to a bound that is not negative. *)
Lemma for_loop_from_0 {St : Type} (body : Z -> St -> St) (hi : Z) (s : St) :
  for_loop 0 hi body s =
  fold_left (fun s k => body (Z.of_nat k) s) (seq 0 (Z.to_nat hi)) s.
Proof.
  destruct (Z.le_gt_cases hi 0) as [H|H].
  - rewrite for_loop_empty by assumption.
    replace (Z.to_nat hi) with 0%nat by lia. reflexivity.
  - rewrite <- (for_loop_fold body (Z.to_nat hi) 0 s).
    cbn [Nat.add Z.of_nat]. rewrite Z2Nat.id by lia. reflexivity.
Qed.

(** ** Comparison of doubles and wrapping counters *)

Lemma compare_cont_Lt_Gt (p q : positive) :
  Pos.compare_cont Eq p q = Lt -> Pos.compare_cont Eq q p = Gt.
Proof.
  change (Pos.compare_cont Eq p q) with (Pos.compare p q).
  change (Pos.compare_cont Eq q p) with (Pos.compare q p).
  intros H. rewrite Pos.compare_antisym, H. reflexivity.
Qed.

Lemma compare_cont_Gt_Lt (p q : positive) :
  Pos.compare_cont Eq p q = Gt -> Pos.compare_cont Eq q p = Lt.
Proof.
  change (Pos.compare_cont Eq p q) with (Pos.compare p q).
  change (Pos.compare_cont Eq q p) with (Pos.compare q p).
  intros H. rewrite Pos.compare_antisym, H. reflexivity.
Qed.

(** [<] on doubles is asymmetric: a trial has at most one winner. *)
Lemma ltb_asym (x y : double) : ltb x y = true -> ltb y x = false.
Proof.
  unfold ltb, SFltb.
  destruct x as [sx|sx| |sx mx ex], y as [sy|sy| |sy my ey]; cbn;
    try destruct sx; try destruct sy; cbn; try congruence.
  - rewrite (Z.compare_antisym ex ey).
    destruct (ex ?= ey) eqn:E; cbn; try congruence.
    destruct (Pos.compare_cont Eq mx my) eqn:C; cbn; try congruence.
    rewrite (compare_cont_Gt_Lt _ _ C). reflexivity.
  - rewrite (Z.compare_antisym ex ey).
    destruct (ex ?= ey) eqn:E; cbn; try congruence.
    destruct (Pos.compare_cont Eq mx my) eqn:C; cbn; try congruence.
    rewrite (compare_cont_Lt_Gt _ _ C). reflexivity.
Qed.

Lemma uint_incr_range (n : Z) : 0 <= uint_incr n < 2 ^ 32.
Proof. unfold uint_incr. apply Z.mod_pos_bound. reflexivity. Qed.

(** An increment changes the counter, also where it wraps. *)
Lemma uint_incr_neq (n : Z) : uint_incr n <> n.
Proof.
  unfold uint_incr. intros H.
  pose proof (Z.mod_pos_bound (n + 1) (2 ^ 32) eq_refl) as B.
  pose proof (Z.div_mod (n + 1) (2 ^ 32) ltac:(discriminate)) as D.
  rewrite H in B, D.
  assert (2 ^ 32 * ((n + 1) / 2 ^ 32) = 1) as E by lia.
  change (2 ^ 32) with 4294967296 in *. lia.
Qed.

Lemma uint_incr_small (n : Z) : 0 <= n < 2 ^ 32 - 1 -> uint_incr n = n + 1.
Proof. intros H. unfold uint_incr. apply Z.mod_small. lia. Qed.

Lemma uint_incr_le (n : Z) : 0 <= n -> uint_incr n <= n + 1.
Proof.
  intros H. unfold uint_incr. apply Z.mod_le; [lia | reflexivity].
Qed.

(** ** Recording one trial *)

Lemma if_incr_changed (c : bool) (n : Z) :
  (if c then uint_incr n else n) <> n <-> c = true.
Proof.
  destruct c; split; intros H; try congruence.
  apply uint_incr_neq.
Qed.

(** C3.  One call of [update_test_result], in both drivers: the
    "noexcept is faster" counter is incremented (modulo 2^32, as an
    [unsigned] is) exactly when the noexcept duration is less than the
    implicit one, the "implicit is faster" counter exactly when the
    implicit duration is less than the noexcept one, a trial never
    increments both, a tie increments neither, each duration is added
    to the sum of its variant, and in [test_result<N>], which tracks
    them, each shortest duration becomes the [std::min] of the old one
    and the new duration, that is the new duration exactly when it is
    less than the old shortest one. *)
Theorem update_test_result_records_trial :
  (forall (r : Main.test_result) (dn di : double),
     let r' := Main.update_test_result r (dn, di) in
     let cn := Main.number_of_times_noexcept_is_faster in
     let ci := Main.number_of_times_implicit_is_faster in
     (ltb dn di = true -> cn r' = uint_incr (cn r) /\ ci r' = ci r) /\
     (ltb di dn = true -> ci r' = uint_incr (ci r) /\ cn r' = cn r) /\
     (ltb dn di = false -> ltb di dn = false ->
        cn r' = cn r /\ ci r' = ci r) /\
     (cn r' <> cn r <-> ltb dn di = true) /\
     (ci r' <> ci r <-> ltb di dn = true) /\
     (0 <= cn r < 2 ^ 32 - 1 -> ltb dn di = true -> cn r' = cn r + 1) /\
     (0 <= ci r < 2 ^ 32 - 1 -> ltb di dn = true -> ci r' = ci r + 1) /\
     Main.sum_of_durations_noexcept r' =
       add (Main.sum_of_durations_noexcept r) dn /\
     Main.sum_of_durations_implicit r' =
       add (Main.sum_of_durations_implicit r) di)
  /\
  (forall (r : Part000.test_result) (dn di : double),
     let r' := Part000.update_test_result r
                 {| Part000.duration_noexcept := dn;
                    Part000.duration_implicit := di |} in
     let cn := Part000.m_number_of_times_noexcept_is_faster in
     let ci := Part000.m_number_of_times_implicit_is_faster in
     let mn := Part000.m_shortest_duration_noexcept in
     let mi := Part000.m_shortest_duration_implicit in
     (ltb dn di = true -> cn r' = uint_incr (cn r) /\ ci r' = ci r) /\
     (ltb di dn = true -> ci r' = uint_incr (ci r) /\ cn r' = cn r) /\
     (ltb dn di = false -> ltb di dn = false ->
        cn r' = cn r /\ ci r' = ci r) /\
     (cn r' <> cn r <-> ltb dn di = true) /\
     (ci r' <> ci r <-> ltb di dn = true) /\
     (0 <= cn r < 2 ^ 32 - 1 -> ltb dn di = true -> cn r' = cn r + 1) /\
     (0 <= ci r < 2 ^ 32 - 1 -> ltb di dn = true -> ci r' = ci r + 1) /\
     Part000.m_sum_of_durations_noexcept r' =
       add (Part000.m_sum_of_durations_noexcept r) dn /\
     Part000.m_sum_of_durations_implicit r' =
       add (Part000.m_sum_of_durations_implicit r) di /\
     mn r' = min (mn r) dn /\
     mi r' = min (mi r) di /\
     (ltb dn (mn r) = true -> mn r' = dn) /\
     (ltb dn (mn r) = false -> mn r' = mn r) /\
     (ltb di (mi r) = true -> mi r' = di) /\
     (ltb di (mi r) = false -> mi r' = mi r) /\
     Part000.m_test_case_name r' = Part000.m_test_case_name r).
Proof.
  split; intros r dn di; cbv zeta;
    unfold Main.update_test_result, Part000.update_test_result, min;
    cbn [Main.number_of_times_noexcept_is_faster
         Main.number_of_times_implicit_is_faster
         Main.sum_of_durations_noexcept Main.sum_of_durations_implicit
         Part000.m_number_of_times_noexcept_is_faster
         Part000.m_number_of_times_implicit_is_faster
         Part000.m_sum_of_durations_noexcept
         Part000.m_sum_of_durations_implicit
         Part000.m_shortest_duration_noexcept
         Part000.m_shortest_duration_implicit
         Part000.m_test_case_name
         Part000.duration_noexcept Part000.duration_implicit fst snd];
    repeat split; intros;
    try match goal with
        | H : _ <> _ |- _ => apply if_incr_changed in H; exact H
        end;
    repeat match goal with
           | H : ltb _ _ = true |- _ =>
               rewrite ?H; apply ltb_asym in H
           | H : ltb _ _ = false |- _ => progress (rewrite ?H)
           end;
    try reflexivity;
    try (apply uint_incr_small; assumption);
    try apply uint_incr_neq.
Qed.

(** ** The counters after a sequence of trials *)

Lemma main_counters_fold (ts : list trial) :
  forall r : Main.test_result,
    main_counters (fold_left Main.update_test_result ts r) =
    fold_left count_trial ts (main_counters r).
Proof.
  induction ts as [|t ts IH]; intros r; [reflexivity|].
  cbn [fold_left]. rewrite IH. reflexivity.
Qed.

Lemma part000_counters_fold (ds : list Part000.durations_type) :
  forall r : Part000.test_result,
    part000_counters (fold_left Part000.update_test_result ds r) =
    fold_left count_trial (map trial_of ds) (part000_counters r).
Proof.
  induction ds as [|d ds IH]; intros r; [reflexivity|].
  cbn [fold_left map]. rewrite IH. reflexivity.
Qed.

Lemma count_of_cons (p : trial -> bool) (t : trial) (ts : list trial) :
  count_of p (t :: ts) = (if p t then 1 else 0) + count_of p ts.
Proof.
  unfold count_of. cbn [filter]. destruct (p t); cbn [length]; lia.
Qed.

Lemma count_of_nonneg (p : trial -> bool) (ts : list trial) :
  0 <= count_of p ts.
Proof. unfold count_of. lia. Qed.

(** No trial is won by both variants. *)
Lemma wins_and_ties (ts : list trial) :
  count_of noexcept_wins ts + count_of implicit_wins ts + count_of is_tie ts
  = Z.of_nat (length ts).
Proof.
  induction ts as [|t ts IH]; [reflexivity|].
  rewrite !count_of_cons. cbn [length]. rewrite Nat2Z.inj_succ.
  assert (noexcept_wins t = true -> implicit_wins t = false) as Hasym
    by apply ltb_asym.
  change (is_tie t) with (negb (noexcept_wins t) && negb (implicit_wins t)).
  destruct (noexcept_wins t), (implicit_wins t); cbn [negb andb];
    try lia; discriminate (Hasym eq_refl).
Qed.

(** The counters never exceed the number of wins, wrapped or not. *)
Lemma count_trial_bound (ts : list trial) :
  forall a b : Z,
    0 <= a -> 0 <= b ->
    let c := fold_left count_trial ts (a, b) in
    0 <= fst c <= a + count_of noexcept_wins ts /\
    0 <= snd c <= b + count_of implicit_wins ts.
Proof.
  induction ts as [|t ts IH]; intros a b Ha Hb; cbv zeta.
  - cbn. unfold count_of. cbn. lia.
  - cbn [fold_left].
    change (count_trial (a, b) t)
      with (if noexcept_wins t then uint_incr a else a,
            if implicit_wins t then uint_incr b else b).
    rewrite !count_of_cons.
    destruct (noexcept_wins t), (implicit_wins t);
      match goal with
      | |- context [fold_left count_trial ts (?x, ?y)] =>
          assert (0 <= x) as Hx
            by (try (pose proof (uint_incr_range a)); lia);
          assert (0 <= y) as Hy
            by (try (pose proof (uint_incr_range b)); lia);
          specialize (IH x y Hx Hy); cbv zeta in IH
      end;
      try pose proof (uint_incr_le a Ha);
      try pose proof (uint_incr_le b Hb); lia.
Qed.

(** Below 2^32 trials the counters are the numbers of wins. *)
Lemma count_trial_exact (ts : list trial) :
  forall a b : Z,
    0 <= a -> 0 <= b ->
    a + count_of noexcept_wins ts < 2 ^ 32 ->
    b + count_of implicit_wins ts < 2 ^ 32 ->
    fold_left count_trial ts (a, b) =
    (a + count_of noexcept_wins ts, b + count_of implicit_wins ts).
Proof.
  induction ts as [|t ts IH]; intros a b Ha Hb Hna Hnb.
  - cbn. unfold count_of. cbn. f_equal; lia.
  - cbn [fold_left].
    change (count_trial (a, b) t)
      with (if noexcept_wins t then uint_incr a else a,
            if implicit_wins t then uint_incr b else b).
    rewrite !count_of_cons in *.
    pose proof (count_of_nonneg noexcept_wins ts).
    pose proof (count_of_nonneg implicit_wins ts).
    destruct (noexcept_wins t), (implicit_wins t);
      try rewrite (uint_incr_small a) by lia;
      try rewrite (uint_incr_small b) by lia;
      rewrite IH by lia; f_equal; lia.
Qed.

(** C4.  After any sequence of [update_test_result] calls on a fresh
    accumulator, in both drivers, the two "faster" counters are not
    negative and their sum is at most the number of trials, which is the
    number of calls made (the length of the sequence): the trials split
    into those won by noexcept, those won by implicit and the ties, and
    each counter is at most the number of wins of its variant (and is
    that number when there are fewer than 2^32 trials). *)
Theorem faster_counts_within_trials :
  (forall ts : list trial,
     let r := fold_left Main.update_test_result ts Main.test_result_init in
     let cn := Main.number_of_times_noexcept_is_faster r in
     let ci := Main.number_of_times_implicit_is_faster r in
     let total := Z.of_nat (length ts) in
     0 <= cn /\ 0 <= ci /\ cn + ci <= total /\
     count_of noexcept_wins ts + count_of implicit_wins ts
       + count_of is_tie ts = total /\
     cn <= count_of noexcept_wins ts /\ ci <= count_of implicit_wins ts /\
     (total < 2 ^ 32 ->
        cn = count_of noexcept_wins ts /\ ci = count_of implicit_wins ts))
  /\
  (forall (N : Z) (name : string) (ds : list Part000.durations_type),
     let r := fold_left Part000.update_test_result ds
                (fst (Part000.test_result_ctor N name)) in
     let cn := Part000.m_number_of_times_noexcept_is_faster r in
     let ci := Part000.m_number_of_times_implicit_is_faster r in
     let ts := map trial_of ds in
     let total := Z.of_nat (length ds) in
     0 <= cn /\ 0 <= ci /\ cn + ci <= total /\
     count_of noexcept_wins ts + count_of implicit_wins ts
       + count_of is_tie ts = total /\
     cn <= count_of noexcept_wins ts /\ ci <= count_of implicit_wins ts /\
     (total < 2 ^ 32 ->
        cn = count_of noexcept_wins ts /\ ci = count_of implicit_wins ts)).
Proof.
  split.
  - intros ts r cn ci total.
    pose proof (main_counters_fold ts Main.test_result_init) as F.
    pose proof (count_trial_bound ts 0 0 ltac:(lia) ltac:(lia)) as B.
    pose proof (wins_and_ties ts) as W.
    pose proof (count_of_nonneg is_tie ts) as T.
    cbv zeta in B. change (main_counters Main.test_result_init) with (0, 0) in F.
    rewrite <- F in B. cbn [main_counters fst snd] in B.
    fold r in B, F. fold cn ci in B. fold total in W.
    repeat split; try lia.
    all: pose proof (count_of_nonneg noexcept_wins ts);
      pose proof (count_of_nonneg implicit_wins ts);
      rewrite (count_trial_exact ts 0 0) in F by lia;
      unfold main_counters in F; fold cn ci in F; inversion F; lia.
  - intros N name ds r cn ci ts total.
    pose proof (part000_counters_fold ds
                  (fst (Part000.test_result_ctor N name))) as F.
    pose proof (count_trial_bound ts 0 0 ltac:(lia) ltac:(lia)) as B.
    pose proof (wins_and_ties ts) as W.
    pose proof (count_of_nonneg is_tie ts) as T.
    cbv zeta in B.
    change (part000_counters (fst (Part000.test_result_ctor N name)))
      with (0, 0) in F.
    fold ts in F. rewrite <- F in B. cbn [part000_counters fst snd] in B.
    fold r in B, F. fold cn ci in B.
    unfold ts in W at 4. rewrite length_map in W. fold total in W.
    repeat split; try lia.
    all: pose proof (count_of_nonneg noexcept_wins ts);
      pose proof (count_of_nonneg implicit_wins ts);
      rewrite (count_trial_exact ts 0 0) in F by lia;
      unfold part000_counters in F; fold cn ci in F; inversion F; lia.
Qed.

(** ** [throw_exception_if] *)

(** C9.  Called with [do_throw_exception = false], [throw_exception_if]
    returns, whatever the build, and leaves the state of the program as
    it was; it fails its assertion or throws only when called with
    [true] (and then does one of the two unless the build disables
    both). *)
Theorem throw_exception_if_false_returns :
  (forall (W : Type) (b : build) (w : W),
     throw_exception_if b false w = Returned w) /\
  (forall (W : Type) (b : build) (flag : bool) (w : W),
     throw_exception_if b flag w = AssertionFailed -> flag = true) /\
  (forall (W : Type) (b : build) (flag : bool) (w w' : W),
     throw_exception_if b flag w = Thrown w' -> flag = true) /\
  (forall (W : Type) (b : build) (w : W),
     throw_exception_if b true w =
     if NDEBUG b
     then if NOEXCEPT_BENCHMARK_THROW_EXCEPTION b =? 0
          then Returned w else Thrown w
     else AssertionFailed).
Proof.
  repeat split.
  - intros W b [] w H; [reflexivity | discriminate H].
  - intros W b [] w w' H; [reflexivity | discriminate H].
  - intros W b w. unfold throw_exception_if.
    destruct (NDEBUG b); cbn [negb]; [|reflexivity].
    destruct (NOEXCEPT_BENCHMARK_THROW_EXCEPTION b =? 0); reflexivity.
Qed.

(** ** The recursive workloads *)

Lemma ushort_decr_small (n : Z) : 1 <= n <= 2 ^ 16 -> ushort_decr n = n - 1.
Proof. intros H. unfold ushort_decr. apply Z.mod_small. lia. Qed.

Lemma main_recursive_func_step (n : Z) :
  Main.recursive_func n =
  if 0 <? ushort_decr n
  then [Call n; DummyCtor] ++ Main.recursive_func (ushort_decr n)
       ++ [DummyDtor]
  else [Call n; DummyCtor; DummyDtor].
Proof.
  rewrite Main.recursive_func_equation_1.
  unfold Main.recursive_func_unfold_clause_1.
  destruct (inspect (0 <? ushort_decr n)) as [[] Heq]; simpl;
    rewrite Heq; reflexivity.
Qed.

Lemma part000_recursive_func_step (n : Z) :
  Part000.recursive_func n =
  if 0 <? ushort_decr n
  then [Call n; DummyCtor] ++ Part000.recursive_func (ushort_decr n)
       ++ [DummyDtor]
  else [Call n].
Proof.
  rewrite Part000.recursive_func_equation_1.
  unfold Part000.recursive_func_unfold_clause_1.
  destruct (inspect (0 <? ushort_decr n)) as [[] Heq]; simpl;
    rewrite Heq; reflexivity.
Qed.

Lemma calls_frame (n : Z) (tr : list frame_event) :
  calls ([Call n; DummyCtor] ++ tr ++ [DummyDtor]) = 1 + calls tr.
Proof.
  unfold calls.
  change ([Call n; DummyCtor] ++ tr ++ [DummyDtor])
    with (Call n :: DummyCtor :: (tr ++ [DummyDtor])).
  cbn [filter is_call]. rewrite filter_app. cbn [filter is_call].
  rewrite app_nil_r. cbn [length]. lia.
Qed.

Lemma dummies_frame (n : Z) (tr : list frame_event) :
  dummies ([Call n; DummyCtor] ++ tr ++ [DummyDtor]) = 1 + dummies tr.
Proof.
  unfold dummies.
  change ([Call n; DummyCtor] ++ tr ++ [DummyDtor])
    with (Call n :: DummyCtor :: (tr ++ [DummyDtor])).
  cbn [filter is_ctor]. rewrite filter_app. cbn [filter is_ctor].
  rewrite app_nil_r. cbn [length]. lia.
Qed.

(** A positive count [n] gives [n] calls, each with its dummy. *)
Lemma main_recursive_func_count (k : nat) :
  Z.of_nat (S k) < 2 ^ 16 ->
  calls (Main.recursive_func (Z.of_nat (S k))) = Z.of_nat (S k) /\
  dummies (Main.recursive_func (Z.of_nat (S k))) = Z.of_nat (S k).
Proof.
  induction k as [|k IH]; intros Hk.
  - rewrite main_recursive_func_step. cbn. split; reflexivity.
  - rewrite main_recursive_func_step.
    rewrite ushort_decr_small by lia.
    replace (Z.of_nat (S (S k)) - 1) with (Z.of_nat (S k)) by lia.
    replace (0 <? Z.of_nat (S k)) with true
      by (symmetry; apply Z.ltb_lt; lia).
    rewrite calls_frame, dummies_frame.
    destruct IH as [IHc IHd]; [lia|]. rewrite IHc, IHd. lia.
Qed.

(** A positive count [n] gives [n] calls, all but the last with a dummy. *)
Lemma part000_recursive_func_count (k : nat) :
  Z.of_nat (S k) < 2 ^ 16 ->
  calls (Part000.recursive_func (Z.of_nat (S k))) = Z.of_nat (S k) /\
  dummies (Part000.recursive_func (Z.of_nat (S k))) = Z.of_nat k.
Proof.
  induction k as [|k IH]; intros Hk.
  - rewrite part000_recursive_func_step. cbn. split; reflexivity.
  - rewrite part000_recursive_func_step.
    rewrite ushort_decr_small by lia.
    replace (Z.of_nat (S (S k)) - 1) with (Z.of_nat (S k)) by lia.
    replace (0 <? Z.of_nat (S k)) with true
      by (symmetry; apply Z.ltb_lt; lia).
    rewrite calls_frame, dummies_frame.
    destruct IH as [IHc IHd]; [lia|]. rewrite IHc, IHd. lia.
Qed.

(** C10.  [recursive_func] decrements its [unsigned short] count before
    it tests it.  Called with 0, the count wraps to 65535: the call
    constructs a dummy and recurses, and 65535 further calls follow
    (65536 calls in all) instead of an immediate return.  Called with
    [n] from 1 to 65535, it makes exactly [n] calls in all.  The
    template of noexcept_benchmark_main.cpp constructs a dummy in every
    call; the functions of part_000 construct one for every recursive
    call they make, that is in every call but the last. *)
Theorem recursive_func_call_count :
  ushort_decr 0 = 65535 /\
  (Main.recursive_func 0 =
     [Call 0; DummyCtor] ++ Main.recursive_func 65535 ++ [DummyDtor] /\
   calls (Main.recursive_func 65535) = 65535 /\
   calls (Main.recursive_func 0) = 65536 /\
   dummies (Main.recursive_func 0) = 65536 /\
   forall n : Z, 1 <= n <= 65535 ->
     calls (Main.recursive_func n) = n /\
     dummies (Main.recursive_func n) = n) /\
  (Part000.recursive_func 0 =
     [Call 0; DummyCtor] ++ Part000.recursive_func 65535 ++ [DummyDtor] /\
   calls (Part000.recursive_func 65535) = 65535 /\
   calls (Part000.recursive_func 0) = 65536 /\
   dummies (Part000.recursive_func 0) = 65535 /\
   forall n : Z, 1 <= n <= 65535 ->
     calls (Part000.recursive_func n) = n /\
     dummies (Part000.recursive_func n) = n - 1).
Proof.
  assert (forall n : Z, 1 <= n <= 65535 ->
            calls (Main.recursive_func n) = n /\
            dummies (Main.recursive_func n) = n) as HM.
  { intros n Hn.
    destruct (main_recursive_func_count (Z.to_nat n - 1)) as [Hc Hd].
    - change (2 ^ 16) with 65536. lia.
    - replace (Z.of_nat (S (Z.to_nat n - 1))) with n in * by lia.
      split; assumption. }
  assert (forall n : Z, 1 <= n <= 65535 ->
            calls (Part000.recursive_func n) = n /\
            dummies (Part000.recursive_func n) = n - 1) as HP.
  { intros n Hn.
    destruct (part000_recursive_func_count (Z.to_nat n - 1)) as [Hc Hd].
    - change (2 ^ 16) with 65536. lia.
    - replace (Z.of_nat (S (Z.to_nat n - 1))) with n in * by lia.
      split; [assumption | lia]. }
  assert (Main.recursive_func 0 =
          [Call 0; DummyCtor] ++ Main.recursive_func 65535 ++ [DummyDtor])
    as EM by (rewrite main_recursive_func_step at 1; reflexivity).
  assert (Part000.recursive_func 0 =
          [Call 0; DummyCtor] ++ Part000.recursive_func 65535 ++ [DummyDtor])
    as EP by (rewrite part000_recursive_func_step at 1; reflexivity).
  destruct (HM 65535 ltac:(lia)) as [HMc HMd].
  destruct (HP 65535 ltac:(lia)) as [HPc HPd].
  split; [reflexivity|]. split.
  - split; [exact EM|]. split; [exact HMc|].
    rewrite EM, calls_frame, dummies_frame, HMc, HMd.
    repeat split; try reflexivity; apply HM; assumption.
  - split; [exact EP|]. split; [exact HPc|].
    rewrite EP, calls_frame, dummies_frame, HPc, HPd.
    repeat split; try reflexivity; apply HP; assumption.
Qed.

(** ** The loop of trials of a test case *)

Lemma measure_until_length {M D : Type} (mp : M -> measured D M) (n : nat) :
  forall m : M,
    (length (fst (measure_until mp n m)) <= n)%nat /\
    (forall m' : M,
       snd (measure_until mp n m) = AllReturned m' ->
       length (fst (measure_until mp n m)) = n).
Proof.
  induction n as [|n IH]; intros m.
  - cbn [measure_until fst snd length]. split; [lia | reflexivity].
  - cbn [measure_until]. destruct (mp m) as [d m1| |].
    + specialize (IH m1). destruct (measure_until mp n m1) as [ds how].
      cbn [fst snd length] in *. destruct IH as [L E]. split; [lia|].
      intros m' H. rewrite (E m' H). reflexivity.
    + cbn [fst snd length]. split; [lia | intros m' H; discriminate H].
    + cbn [fst snd length]. split; [lia | intros m' H; discriminate H].
Qed.

(** A loop that has been left runs no further iteration. *)
Lemma stopped_fold {St : Type} (f : St -> nat -> St) (l : list nat) (p : St) :
  (forall k : nat, f p k = p) -> fold_left f l p = p.
Proof.
  intros H. induction l as [|k l IH]; [reflexivity|].
  cbn [fold_left]. rewrite H. exact IH.
Qed.

(** The loop of a block records the trials that return, in order, and
    stops at the first measurement that does not. *)
Lemma trials_fold {M R D : Type} (mp : M -> measured D M) (upd : R -> D -> R)
    (pr : D -> list out_item) (n : nat) :
  forall (a : nat) (m : M) (r : R) (out : list out_item),
    fold_left
      (fun (p : progress M R) (k : nat) =>
         match p with
         | Running m result out =>
             match mp m with
             | Returns d m => Running m (upd result d) (out ++ pr d)
             | Throws => Unwinding result out
             | Aborts => Ended out
             end
         | _ => p
         end)
      (seq a n) (Running m r out) =
    match snd (measure_until mp n m) with
    | AllReturned m' =>
        Running m' (fold_left upd (fst (measure_until mp n m)) r)
                (out ++ flat_map pr (fst (measure_until mp n m)))
    | ByThrow =>
        Unwinding (fold_left upd (fst (measure_until mp n m)) r)
                  (out ++ flat_map pr (fst (measure_until mp n m)))
    | ByAbort => Ended (out ++ flat_map pr (fst (measure_until mp n m)))
    end.
Proof.
  induction n as [|n IH]; intros a m r out.
  - cbn. rewrite app_nil_r. reflexivity.
  - cbn [seq fold_left measure_until]. destruct (mp m) as [d m1| |].
    + rewrite IH. destruct (measure_until mp n m1) as [ds how].
      cbn [fst snd fold_left flat_map]. rewrite <- !app_assoc.
      reflexivity.
    + rewrite stopped_fold by reflexivity.
      cbn. rewrite app_nil_r. reflexivity.
    + rewrite stopped_fold by reflexivity.
      cbn. rewrite app_nil_r. reflexivity.
Qed.

(** Replaces the loop of the goal, once unfolded to a fold, by what
    [F] says of it. *)
Ltac use_loop F :=
  match type of F with
  | _ = ?rhs =>
      match goal with
      | |- context [fold_left ?f ?l ?s] =>
          replace (fold_left f l s) with rhs by (symmetry; exact F)
      end
  end.

(** What a block of noexcept_benchmark_main.cpp does. *)
Lemma main_test_case_run {M : Type} (header : list out_item)
    (mp : M -> measured trial M) (m : M) (out : list out_item) :
  let t := measure_until mp (Z.to_nat Main.max_number_of_times) m in
  Main.test_case header mp (m, out) =
  match snd t with
  | AllReturned m' => Completed m' (out ++ main_block header (fst t))
  | _ => Terminated (out ++ main_block_cut header (fst t))
  end.
Proof.
  cbv zeta. unfold Main.test_case. rewrite for_loop_from_0.
  pose proof (trials_fold mp Main.update_test_result Main.print_durations
                (Z.to_nat Main.max_number_of_times) 0 m
                Main.test_result_init (out ++ header)) as F.
  cbv beta iota zeta in F. use_loop F.
  unfold main_block, main_block_cut.
  destruct (snd (measure_until mp (Z.to_nat Main.max_number_of_times) m));
    rewrite <- ?app_assoc; reflexivity.
Qed.

(** What a block of part_000 does. *)
Lemma part000_test_case_run {M : Type} (unwinds : bool) (b : build) (N : Z)
    (name : string) (mp : M -> measured Part000.durations_type M) (m : M)
    (out : list out_item) :
  let t := measure_until mp (Z.to_nat (Part000.number_of_iterations b)) m in
  Part000.test_case unwinds b N name mp (m, out) =
  match snd t with
  | AllReturned m' => Completed m' (out ++ part000_block N name (fst t))
  | how =>
      Terminated
        (out ++ part000_block_cut (destroys unwinds how) N name (fst t))
  end.
Proof.
  cbv zeta. unfold Part000.test_case.
  unfold Part000.test_result_ctor at 1. cbv beta iota.
  rewrite for_loop_from_0.
  pose proof (trials_fold mp Part000.update_test_result
                Part000.print_durations
                (Z.to_nat (Part000.number_of_iterations b)) 0 m
                (fst (Part000.test_result_ctor N name))
                (out ++ snd (Part000.test_result_ctor N name))) as F.
  unfold Part000.print_durations_and_update_test_result.
  cbn [fst snd Part000.test_result_ctor] in F |- *.
  cbv beta iota zeta in F. use_loop F.
  unfold part000_block, part000_block_cut, destroys.
  cbn [fst snd Part000.test_result_ctor].
  destruct (snd (measure_until mp
                   (Z.to_nat (Part000.number_of_iterations b)) m));
    [| destruct unwinds |]; rewrite <- ?app_assoc; reflexivity.
Qed.

(** C7.  The number of trials of a test case is fixed by the build, and
    it is not in every build between 4 and 10.  In
    noexcept_benchmark_main.cpp it is [max_number_of_times] = 4.  In
    part_000 it is [number_of_iterations], which is the macro
    [NOEXCEPT_BENCHMARK_NUMBER_OF_ITERATIONS] converted to [int], a
    number from -2^31 up to 2^31 - 1: 10,
    and so within 4 and 10, in a build that does not define the macro,
    and the value the build gives it otherwise.  The loop of a block
    makes its paired measurement and records it that many times, one
    after the other, when every measurement returns; otherwise it has
    recorded the trials before the first measurement that does not
    return, which are fewer, and the program ends there. *)
Theorem trials_per_test_case :
  Main.max_number_of_times = 4 /\
  (forall b : build,
     Part000.number_of_iterations b =
       to_int (NOEXCEPT_BENCHMARK_NUMBER_OF_ITERATIONS b) /\
     - 2 ^ 31 <= Part000.number_of_iterations b < 2 ^ 31 /\
     (defined_NUMBER_OF_ITERATIONS b = None ->
      Part000.number_of_iterations b = 10 /\
      4 <= Main.max_number_of_times <= 10 /\
      4 <= Part000.number_of_iterations b <= 10) /\
     (forall v : Z,
        defined_NUMBER_OF_ITERATIONS b = Some v ->
        - 2 ^ 31 <= v < 2 ^ 31 ->
        Part000.number_of_iterations b = v)) /\
  (forall (M : Type) (header : list out_item) (mp : M -> measured trial M)
          (m : M) (out : list out_item),
     let t := measure_until mp 4 m in
     (length (fst t) <= 4)%nat /\
     (forall m' : M, snd t = AllReturned m' -> length (fst t) = 4%nat) /\
     Main.test_case header mp (m, out) =
     match snd t with
     | AllReturned m' =>
         Completed m'
           (out ++ header ++ flat_map Main.print_durations (fst t)
                ++ Main.print_conclusion
                     (fold_left Main.update_test_result (fst t)
                                Main.test_result_init))
     | _ =>
         Terminated (out ++ header ++ flat_map Main.print_durations (fst t))
     end) /\
  (forall (M : Type) (unwinds : bool) (b : build) (N : Z) (name : string)
          (mp : M -> measured Part000.durations_type M)
          (m : M) (out : list out_item),
     let n := Z.to_nat (Part000.number_of_iterations b) in
     let t := measure_until mp n m in
     (length (fst t) <= n)%nat /\
     (forall m' : M, snd t = AllReturned m' -> length (fst t) = n) /\
     Part000.test_case unwinds b N name mp (m, out) =
     match snd t with
     | AllReturned m' => Completed m' (out ++ part000_block N name (fst t))
     | how =>
         Terminated
           (out ++ part000_block_cut (destroys unwinds how) N name (fst t))
     end).
Proof.
  split; [reflexivity|]. split; [|split].
  - intros b. split; [reflexivity|]. split; [|split].
    + unfold Part000.number_of_iterations, to_int.
      pose proof (Z.mod_pos_bound
                    (NOEXCEPT_BENCHMARK_NUMBER_OF_ITERATIONS b + 2 ^ 31)
                    (2 ^ 32) eq_refl).
      lia.
    + intros Hdefault.
      assert (Part000.number_of_iterations b = 10) as Hn.
      { unfold Part000.number_of_iterations,
          NOEXCEPT_BENCHMARK_NUMBER_OF_ITERATIONS.
        rewrite Hdefault. reflexivity. }
      rewrite Hn. unfold Main.max_number_of_times. lia.
    + intros v Hv Hrange.
      unfold Part000.number_of_iterations,
        NOEXCEPT_BENCHMARK_NUMBER_OF_ITERATIONS.
      rewrite Hv. unfold to_int.
      rewrite Z.mod_small by lia. lia.
  - intros M header mp m out t.
    destruct (measure_until_length mp 4 m) as [L E].
    split; [exact L|]. split; [exact E|].
    pose proof (main_test_case_run header mp m out) as R.
    cbv zeta in R.
    change (Z.to_nat Main.max_number_of_times) with 4%nat in R.
    fold t in R. rewrite R. unfold main_block, main_block_cut.
    destruct (snd t); reflexivity.
  - intros M unwinds b N name mp m out n t.
    destruct (measure_until_length mp n m) as [L E].
    split; [exact L|]. split; [exact E|].
    apply (part000_test_case_run unwinds b N name mp m out).
Qed.

(** In a build that gives the macro the value 100, the number of trials
    is outside 4 and 10: a test case of part_000 makes and records 100
    paired measurements. *)
Lemma hundred_trials_when_the_build_says_so :
  let b := {| NDEBUG := false;
              defined_NUMBER_OF_ITERATIONS := Some 100;
              defined_THROW_EXCEPTION := None |} in
  let one := {| Part000.duration_noexcept := of_Z 1;
                Part000.duration_implicit := of_Z 2 |} in
  Part000.number_of_iterations b = 100 /\
  ~ (4 <= Part000.number_of_iterations b <= 10) /\
  Part000.test_case false b 7 "inline function calls"
    (fun k : nat => Returns one (S k)) (0%nat, []) =
  Completed 100%nat
    (part000_block 7 "inline function calls" (repeat one 100)).
Proof.
  intros b one. split; [reflexivity|]. split.
  - change (Part000.number_of_iterations b) with 100. lia.
  - pose proof (part000_test_case_run false b 7 "inline function calls"
                  (fun k : nat => Returns one (S k)) 0%nat []) as R.
    cbv zeta in R.
    change (Z.to_nat (Part000.number_of_iterations b)) with 100%nat in R.
    replace (measure_until (fun k : nat => Returns one (S k)) 100 0%nat)
      with (repeat one 100, AllReturned 100%nat) in R
      by (vm_compute; reflexivity).
    exact R.
Qed.

(** ** The life of the [result] of a test case *)

Lemma count_endl_app (out1 out2 : list out_item) :
  count_endl (out1 ++ out2) = (count_endl out1 + count_endl out2)%nat.
Proof.
  unfold count_endl. rewrite filter_app, length_app. reflexivity.
Qed.

Lemma count_endl_trials (ds : list Part000.durations_type) :
  count_endl (flat_map Part000.print_durations ds) = 0%nat.
Proof.
  induction ds as [|d ds IH]; [reflexivity|].
  cbn [flat_map]. rewrite count_endl_app, IH. reflexivity.
Qed.

(** C8.  The life of the [result] of a test case of part_000, and the
    one error path on which the claim of a summary printed exactly once
    fails.  The constructor prints the header.  Every iteration of the
    loop whose measurement returns prints and records one trial.  When
    the loop ends, the block ends and the destructor prints the
    summary: once, as the last output of the block, after every trial,
    and computed from the trials recorded, all of them; it ends with
    the only end of line of the block.  When a measurement throws, the
    exception finds no handler: the summary of the trials before is
    printed once if the implementation unwinds the stack, and not at
    all if it does not.  When a measurement ends the process, no
    summary is printed.  In no case is anything of the test case
    printed after its summary. *)
Theorem test_result_lifecycle :
  (forall (N : Z) (name : string),
     snd (Part000.test_result_ctor N name) =
     [OStr (nl +++ "["); OStr name; OStr " (N = "; OInt N;
      OStr (")]" +++ nl +++ "  noexcept " +++ tab +++ " implicit");
      OFlush]) /\
  (forall r : Part000.test_result,
     let summary := Part000.test_result_dtor r in
     length summary = 20%nat /\
     nth_error summary 0 = Some (OStr (nl +++ "Shortest duration: ")) /\
     nth_error summary 1 =
       Some (ODouble (Part000.m_shortest_duration_noexcept r)) /\
     nth_error summary 4 =
       Some (ODouble (Part000.m_shortest_duration_implicit r)) /\
     nth_error summary 7 =
       Some (ODouble (Part000.m_sum_of_durations_noexcept r)) /\
     nth_error summary 10 =
       Some (ODouble (Part000.m_sum_of_durations_implicit r)) /\
     nth_error summary 19 = Some OEndl /\
     count_endl summary = 1%nat) /\
  (forall (M : Type) (unwinds : bool) (b : build) (N : Z) (name : string)
          (mp : M -> measured Part000.durations_type M)
          (m : M) (out : list out_item),
     let t := measure_until mp (Z.to_nat (Part000.number_of_iterations b)) m in
     let header := snd (Part000.test_result_ctor N name) in
     let trials := flat_map Part000.print_durations (fst t) in
     let summary :=
       Part000.test_result_dtor
         (fold_left Part000.update_test_result (fst t)
                    (fst (Part000.test_result_ctor N name))) in
     count_endl (header ++ trials) = 0%nat /\
     match snd t with
     | AllReturned m' =>
         Part000.test_case unwinds b N name mp (m, out) =
           Completed m' (out ++ header ++ trials ++ summary) /\
         count_endl (header ++ trials ++ summary) = 1%nat
     | ByThrow =>
         Part000.test_case unwinds b N name mp (m, out) =
           Terminated
             (out ++ header ++ trials ++ (if unwinds then summary else [])) /\
         count_endl (header ++ trials ++ (if unwinds then summary else []))
           = (if unwinds then 1 else 0)%nat
     | ByAbort =>
         Part000.test_case unwinds b N name mp (m, out) =
           Terminated (out ++ header ++ trials)
     end).
Proof.
  split; [reflexivity|]. split.
  - intros r summary. repeat (split; [reflexivity|]). reflexivity.
  - intros M unwinds b N name mp m out t header trials summary.
    assert (count_endl (header ++ trials) = 0%nat) as C0.
    { rewrite count_endl_app. unfold trials.
      rewrite count_endl_trials. reflexivity. }
    assert (count_endl summary = 1%nat) as C1 by reflexivity.
    split; [exact C0|].
    pose proof (part000_test_case_run unwinds b N name mp m out) as R.
    cbv zeta in R. fold t in R. rewrite R.
    unfold part000_block, part000_block_cut, destroys.
    fold header. fold trials. fold summary.
    destruct (snd t) as [m'| |].
    + split; [reflexivity|].
      rewrite app_assoc, count_endl_app, C0, C1. reflexivity.
    + destruct unwinds.
      * split; [reflexivity|].
        rewrite app_assoc, count_endl_app, C0, C1. reflexivity.
      * rewrite app_nil_r. split; [reflexivity | exact C0].
    + reflexivity.
Qed.

(** A measurement that ends the process in the second iteration, a
    stack exhausted by the recursion for one: the block has printed its
    header and one trial, and no summary, whether the implementation
    unwinds or not.  A measurement that throws there, when the
    implementation does not unwind: no summary either. *)
Lemma no_summary_when_a_measurement_does_not_return :
  let one := {| Part000.duration_noexcept := of_Z 1;
                Part000.duration_implicit := of_Z 2 |} in
  let aborts := fun k : nat =>
    match k with O => Returns one 1%nat | _ => Aborts end in
  let throws := fun k : nat =>
    match k with O => Returns one 1%nat | _ => Throws end in
  let printed :=
    snd (Part000.test_result_ctor 7 "recursive function calls")
    ++ Part000.print_durations one in
  Part000.test_case true default_build 7 "recursive function calls"
    aborts (0%nat, []) = Terminated printed /\
  Part000.test_case false default_build 7 "recursive function calls"
    aborts (0%nat, []) = Terminated printed /\
  Part000.test_case false default_build 7 "recursive function calls"
    throws (0%nat, []) = Terminated printed /\
  count_endl printed = 0%nat.
Proof.
  intros one aborts throws printed.
  assert (forall (unwinds : bool) (mp : nat -> measured _ nat)
                 (how : stopped nat),
            measure_until mp 10 0%nat = ([one], how) ->
            destroys unwinds how = false ->
            Part000.test_case unwinds default_build 7
              "recursive function calls" mp (0%nat, []) =
            Terminated printed) as R.
  { intros unwinds mp how E D.
    pose proof (part000_test_case_run unwinds default_build 7
                  "recursive function calls" mp 0%nat []) as R.
    cbv zeta in R.
    change (Z.to_nat (Part000.number_of_iterations default_build))
      with 10%nat in R.
    rewrite E in R. cbn [fst snd] in R. rewrite R.
    destruct how as [m'| |]; [discriminate D | |];
      rewrite D; reflexivity. }
  split; [apply (R true aborts ByAbort); reflexivity|].
  split; [apply (R false aborts ByAbort); reflexivity|].
  split; [apply (R false throws ByThrow); reflexivity|].
  reflexivity.
Qed.

(** ** The timing primitive *)

Lemma fold_left_iter {St : Type} (f : St -> St) (n : nat) :
  forall (a : nat) (s : St),
    fold_left (fun (s : St) (k : nat) => f s) (seq a n) s = Nat.iter n f s.
Proof.
  induction n as [|n IH]; intros a s; [reflexivity|].
  cbn [seq fold_left]. rewrite IH. symmetry. apply Nat.iter_succ_r.
Qed.

(** A sample runs the work [loopsize] times and reads the cycles spent. *)
Lemma sample_iter {M : Type} (clock : M -> Z) (n : nat) (func : M -> M)
    (m : M) :
  sample clock (Z.of_nat n) func m =
  (clock (Nat.iter n func m) - clock m, Nat.iter n func m).
Proof.
  unfold sample. rewrite for_loop_from_0, Nat2Z.id.
  rewrite (fold_left_iter func n 0 m). reflexivity.
Qed.

Lemma iter_add {St : Type} (f : St -> St) (p q : nat) (s : St) :
  Nat.iter p f (Nat.iter q f s) = Nat.iter (p + q) f s.
Proof. symmetry. apply Nat.iter_add. Qed.

(** C5.  [profile_func_call] asks the stopwatch for [minimum_of] = 3
    samples, each an inner loop of [loopsize] = 1000 executions of the
    work, so that the work runs 3000 times in all; of the three cycle
    counts it keeps the smallest, and it returns that count divided by
    [cpu_frequency], multiplied by 1e9 and divided by the loop size
    1000, in this order and in double arithmetic: nanoseconds for one
    execution.  A work of [cpu_frequency] cycles, one second, is
    measured as 1e9 nanoseconds. *)
Theorem profile_func_call_formula :
  minimum_of = 3 /\ loopsize = 1000 /\
  (forall (M : Type) (clock : M -> Z) (func : M -> M) (m : M),
    let m1 := Nat.iter 1000 func m in
    let m2 := Nat.iter 1000 func m1 in
    let m3 := Nat.iter 1000 func m2 in
    let smallest :=
      Z.min (Z.min (clock m1 - clock m) (clock m2 - clock m1))
            (clock m3 - clock m2) in
    profile_func_call clock func m =
    (div (mul (div (of_Z smallest) cpu_frequency) (of_Z 1000000000))
         (of_Z 1000),
     m3) /\
    m3 = Nat.iter 3000 func m) /\
  fst (profile_func_call (fun c : Z => c)
                         (fun c : Z => c + 3612059050) 0) =
  of_Z 1000000000.
Proof.
  assert (forall (M : Type) (clock : M -> Z) (func : M -> M) (m : M),
            let m1 := Nat.iter 1000 func m in
            let m2 := Nat.iter 1000 func m1 in
            let m3 := Nat.iter 1000 func m2 in
            let smallest :=
              Z.min (Z.min (clock m1 - clock m) (clock m2 - clock m1))
                    (clock m3 - clock m2) in
            profile_func_call clock func m =
            (div (mul (div (of_Z smallest) cpu_frequency) (of_Z 1000000000))
                 (of_Z 1000),
             m3)) as F.
  { intros M clock func m m1 m2 m3 smallest.
    unfold profile_func_call, measure. rewrite for_loop_from_0.
    change (Z.to_nat minimum_of) with 3%nat.
    change loopsize with (Z.of_nat 1000).
    cbn [seq fold_left]. rewrite !sample_iter. cbn [keep_smallest].
    reflexivity. }
  split; [reflexivity|]. split; [reflexivity|]. split.
  - intros M clock func m m1 m2 m3 smallest. split.
    + apply F.
    + unfold m3, m2, m1. rewrite !iter_add. reflexivity.
  - rewrite F. cbv zeta. cbn [fst]. vm_compute. reflexivity.
Qed.

(** ** Division by the smallest positive double *)

(** Shifting a mantissa left by [k] bits adds [k] digits. *)
Lemma digits2_pos_shiftl_nat (m : positive) (k : nat) :
  Zpos (digits2_pos (Pos.shiftl_nat m k)) = Zpos (digits2_pos m) + Z.of_nat k.
Proof.
  induction k as [|k IH].
  - cbn. lia.
  - change (Pos.shiftl_nat m (S k)) with (xO (Pos.shiftl_nat m k)).
    cbn [digits2_pos]. rewrite Pos2Z.inj_succ, IH. lia.
Qed.

(** Shifting a mantissa left by [k] bits multiplies it by 2^k. *)
Lemma Zpos_shiftl_nat (m : positive) (k : nat) :
  Zpos (Pos.shiftl_nat m k) = Zpos m * 2 ^ Z.of_nat k.
Proof.
  induction k as [|k IH].
  - cbn. lia.
  - change (Pos.shiftl_nat m (S k)) with (xO (Pos.shiftl_nat m k)).
    rewrite Pos2Z.inj_xO, IH, Nat2Z.inj_succ, Z.pow_succ_r by lia. lia.
Qed.

(** Rounding an exact quotient of 54 bits whose last bit is 0: the bit
    is dropped, and the result overflows when the exponent is too
    large. *)
Lemma round_exact_even (q : positive) (ez : Z) :
  Zpos (digits2_pos q) = 53 -> -1075 <= ez ->
  binary_round_aux prec emax false (Zpos (xO q)) ez loc_Exact =
  if ez + 1 <=? 971 then S754_finite false q (ez + 1)
  else S754_infinity false.
Proof.
  intros Hd He.
  unfold binary_round_aux.
  assert (shr_fexp prec emax (Zpos (xO q)) ez loc_Exact =
          ({| shr_m := Zpos q; shr_r := false; shr_s := false |}, ez + 1))
    as E1.
  { unfold shr_fexp. cbn [Zdigits2 digits2_pos]. rewrite Pos2Z.inj_succ, Hd.
    unfold fexp, emin, prec, emax.
    replace (Z.max (Z.succ 53 + ez - 53) (3 - 1024 - 53) - ez) with 1 by lia.
    reflexivity. }
  rewrite E1. cbn [shr_m loc_of_shr_record round_nearest_even].
  assert (shr_fexp prec emax (Zpos q) (ez + 1) loc_Exact =
          ({| shr_m := Zpos q; shr_r := false; shr_s := false |}, ez + 1))
    as E2.
  { unfold shr_fexp. cbn [Zdigits2]. rewrite Hd.
    unfold fexp, emin, prec, emax.
    replace (Z.max (53 + (ez + 1) - 53) (3 - 1024 - 53) - (ez + 1)) with 0
      by lia.
    reflexivity. }
  rewrite E2. cbn [shr_m]. reflexivity.
Qed.

(** A valid finite double is normal (53 digits) or subnormal (exponent
    -1074). *)
Lemma bounded_shape (mx : positive) (ex : Z) :
  bounded prec emax mx ex = true ->
  1 <= Zpos (digits2_pos mx) <= 53 /\ -1074 <= ex <= 971 /\
  (Zpos (digits2_pos mx) = 53 \/ ex = -1074).
Proof.
  unfold bounded, canonical_mantissa, fexp, emin, prec, emax.
  intros H. apply andb_true_iff in H. destruct H as [Hc He].
  apply Z.eqb_eq in Hc. apply Z.leb_le in He.
  pose proof (Pos2Z.is_pos (digits2_pos mx)). lia.
Qed.

Lemma div_eucl_1 (a : Z) : Z.div_eucl a 1 = (a, 0).
Proof.
  rewrite (surjective_pairing (Z.div_eucl a 1)).
  change (fst (Z.div_eucl a 1)) with (a / 1).
  change (snd (Z.div_eucl a 1)) with (a mod 1).
  rewrite Z.div_1_r, Z.mod_1_r. reflexivity.
Qed.

(** The quotient by 2^-1074 before rounding: the mantissa shifted to 54
    bits, exactly. *)
Lemma div_core_denorm_min (mx : positive) (ex : Z) :
  bounded prec emax mx ex = true ->
  let d := Zpos (digits2_pos mx) in
  SFdiv_core_binary prec emax (Zpos mx) ex 1 (-1074) =
  (Zpos (xO (Pos.shiftl_nat mx (Z.to_nat (53 - d)))), d + ex + 1020,
   loc_Exact).
Proof.
  intros Hb d. destruct (bounded_shape mx ex Hb) as [Hd [He Hn]].
  fold d in Hd, Hn.
  unfold SFdiv_core_binary. cbn [Zdigits2 digits2_pos]. fold d. cbv zeta.
  replace (Z.min (fexp prec emax (d + ex - (1 + -1074))) (ex - -1074))
    with (d + ex + 1020) by (unfold fexp, emin, prec, emax; lia).
  replace (ex - -1074 - (d + ex + 1020)) with (Zpos (Z.to_pos (54 - d)))
    by lia.
  cbv beta iota.
  rewrite Z.shiftl_mul_pow2 by lia.
  replace (Zpos mx * 2 ^ Zpos (Z.to_pos (54 - d)))
    with (Zpos (xO (Pos.shiftl_nat mx (Z.to_nat (53 - d))))).
  2:{ rewrite Pos2Z.inj_xO, Zpos_shiftl_nat.
      replace (Zpos (Z.to_pos (54 - d)))
        with (Z.succ (Z.of_nat (Z.to_nat (53 - d)))) by lia.
      rewrite Z.pow_succ_r by lia. lia. }
  rewrite div_eucl_1. reflexivity.
Qed.

(** A positive finite double divided by [denorm_min]. *)
Lemma div_denorm_min_finite (mx : positive) (ex : Z) :
  bounded prec emax mx ex = true ->
  let d := Zpos (digits2_pos mx) in
  let k := Z.to_nat (53 - d) in
  div (S754_finite false mx ex) denorm_min =
  if d + ex <=? -50
  then S754_finite false (Pos.shiftl_nat mx k) (ex + 1074 - Z.of_nat k)
  else S754_infinity false.
Proof.
  intros Hb d k. destruct (bounded_shape mx ex Hb) as [Hd [He Hn]].
  fold d in Hd, Hn.
  unfold div, SFdiv, denorm_min. cbn [xorb].
  rewrite (div_core_denorm_min mx ex Hb). fold d. fold k.
  rewrite round_exact_even.
  - replace (d + ex + 1020 + 1 <=? 971) with (d + ex <=? -50)
      by (apply Bool.eq_true_iff_eq; rewrite !Z.leb_le; lia).
    replace (d + ex + 1020 + 1) with (ex + 1074 - Z.of_nat k) by lia.
    reflexivity.
  - rewrite digits2_pos_shiftl_nat. fold d. lia.
  - lia.
Qed.

Lemma digits2_pos_size (p : positive) : digits2_pos p = Pos.size p.
Proof. induction p as [p IH|p IH|]; cbn; congruence. Qed.

Lemma full_mantissa_lower_bound (mx : positive) :
  Zpos (digits2_pos mx) = 53 -> (4503599627370496 <= mx)%positive.
Proof.
  intros H. rewrite digits2_pos_size in H.
  pose proof (Pos.size_le mx) as L.
  assert (Pos.size mx = 53%positive) as E by congruence.
  rewrite E in L.
  change (2 ^ 53)%positive with 9007199254740992%positive in L. lia.
Qed.

(** A finite double that is not negative is below 2^-50 exactly when
    its mantissa and exponent say so. *)
Lemma ltb_two_pow_m50 (mx : positive) (ex : Z) :
  bounded prec emax mx ex = true ->
  ltb (S754_finite false mx ex) two_pow_m50 =
  (Zpos (digits2_pos mx) + ex <=? -50).
Proof.
  intros Hb. destruct (bounded_shape mx ex Hb) as [Hd [He Hn]].
  unfold ltb, SFltb, SFcompare, two_pow_m50.
  destruct (Z.compare_spec ex (-102)) as [E|L|G].
  - assert (Zpos (digits2_pos mx) = 53) as D by lia.
    pose proof (full_mantissa_lower_bound mx D) as B.
    destruct (Pos.compare_cont Eq mx 4503599627370496) eqn:C.
    + clear C B. symmetry. apply Z.leb_gt. lia.
    + apply (proj1 (Pos.compare_lt_iff mx _)) in C. exfalso.
      apply (proj1 (Pos.lt_nle _ _) C). exact B.
    + clear C B. symmetry. apply Z.leb_gt. lia.
  - symmetry. apply Z.leb_le. lia.
  - symmetry. apply Z.leb_gt. lia.
Qed.

(** For [y <= 0] the test [y > 0] fails. *)
Lemma nonpositive_not_positive (y : double) :
  leb y zero = true -> ltb zero y = false.
Proof.
  unfold leb, ltb, SFleb, SFltb, zero.
  destruct y as [s|s| |s m e]; cbn [SFcompare]; try destruct s; congruence.
Qed.

(** C1, as the code has it.  For a finite [x >= 0] and a [y <= 0], both
    [divide_by_positive] functions divide [x] by [denorm_min], the
    smallest positive double, 2^-1074.  The quotient is never a NaN and
    never negative.  It is zero when [x] is zero, and finite when [x]
    is below 2^-50: then it is [x] scaled by 2^1074 exactly, the
    mantissa of [x] shifted to its full 53 bits.  From 2^-50 on the
    quotient overflows, and the result is +infinity. *)
Theorem divide_by_positive_nonpositive_denominator (x y : double)
    (Hvalid : valid x = true) (Hfinite : is_finite x = true)
    (Hx : leb zero x = true) (Hy : leb y zero = true) :
  Main.divide_by_positive x y = div x denorm_min /\
  Part000.divide_by_positive x y = div x denorm_min /\
  is_nan (div x denorm_min) = false /\
  leb zero (div x denorm_min) = true /\
  (ltb x two_pow_m50 = true -> is_finite (div x denorm_min) = true) /\
  (ltb x two_pow_m50 = false -> div x denorm_min = infinity) /\
  match x with
  | S754_zero s => div x denorm_min = S754_zero s
  | S754_finite _ mx ex =>
      let k := Z.to_nat (53 - Zpos (digits2_pos mx)) in
      div x denorm_min =
      if ltb x two_pow_m50
      then S754_finite false (Pos.shiftl_nat mx k) (ex + 1074 - Z.of_nat k)
      else infinity
  | _ => False
  end.
Proof.
  pose proof (nonpositive_not_positive y Hy) as Hy0.
  unfold Main.divide_by_positive, Part000.divide_by_positive.
  rewrite Hy0. split; [reflexivity|]. split; [reflexivity|].
  destruct x as [s|s| |s mx ex]; try discriminate Hfinite.
  - destruct s; repeat split; try reflexivity; intros H; discriminate H.
  - assert (s = false) as Hs by (destruct s; [discriminate Hx | reflexivity]).
    subst s. pose proof (div_denorm_min_finite mx ex Hvalid) as D.
    cbv zeta in D. rewrite <- (ltb_two_pow_m50 mx ex Hvalid) in D.
    rewrite D.
    destruct (ltb (S754_finite false mx ex) two_pow_m50);
      repeat split; try reflexivity; intros H; discriminate H.
Qed.

Lemma divide_by_positive_nonpositive_denominator_witness :
  leb zero (of_Z 4) = true /\ leb zero zero = true /\
  Main.divide_by_positive (of_Z 4) zero = div (of_Z 4) denorm_min.
Proof.
  split; [reflexivity|]. split; [reflexivity|].
  exact (proj1 (divide_by_positive_nonpositive_denominator
                  (of_Z 4) zero eq_refl eq_refl eq_refl eq_refl)).
Defined.

(** C1 as it was stated fails: for the single trial (0.0, 4.0) the
    ratio of the implicit to the noexcept duration, which the summary of
    part_000 prints, is +infinity, not a finite number. *)
Lemma ratio_of_zero_duration_is_infinite :
  let r := Part000.update_test_result
             (fst (Part000.test_result_ctor 42 "inline function calls"))
             {| Part000.duration_noexcept := zero;
                Part000.duration_implicit := of_Z 4 |} in
  nth_error (Part000.test_result_dtor r) 15 = Some (ODouble infinity) /\
  Part000.divide_by_positive (of_Z 4) zero = infinity /\
  Main.divide_by_positive (of_Z 4) zero = infinity /\
  is_finite (Main.divide_by_positive (of_Z 4) zero) = false.
Proof. vm_compute. repeat split; reflexivity. Qed.

(** ** The verdict *)

Lemma main_counters_range (ts : list trial) :
  let r := fold_left Main.update_test_result ts Main.test_result_init in
  0 <= Main.number_of_times_noexcept_is_faster r /\
  0 <= Main.number_of_times_implicit_is_faster r /\
  Main.number_of_times_noexcept_is_faster r
  + Main.number_of_times_implicit_is_faster r <= Z.of_nat (length ts).
Proof.
  cbv zeta.
  pose proof (main_counters_fold ts Main.test_result_init) as F.
  pose proof (count_trial_bound ts 0 0 ltac:(lia) ltac:(lia)) as B.
  cbv zeta in B.
  change (main_counters Main.test_result_init) with (0, 0) in F.
  rewrite <- F in B. cbn [main_counters fst snd] in B.
  pose proof (wins_and_ties ts). pose proof (count_of_nonneg is_tie ts).
  lia.
Qed.

Lemma part000_counters_exact (N : Z) (name : string)
    (ds : list Part000.durations_type) :
  Z.of_nat (length ds) < 2 ^ 32 ->
  let r := fold_left Part000.update_test_result ds
             (fst (Part000.test_result_ctor N name)) in
  Part000.m_number_of_times_noexcept_is_faster r
    = count_of noexcept_wins (map trial_of ds) /\
  Part000.m_number_of_times_implicit_is_faster r
    = count_of implicit_wins (map trial_of ds).
Proof.
  intros Hlt. cbv zeta.
  pose proof (part000_counters_fold ds
                (fst (Part000.test_result_ctor N name))) as F.
  change (part000_counters (fst (Part000.test_result_ctor N name)))
    with (0, 0) in F.
  pose proof (wins_and_ties (map trial_of ds)) as W.
  rewrite length_map in W.
  pose proof (count_of_nonneg is_tie (map trial_of ds)).
  pose proof (count_of_nonneg noexcept_wins (map trial_of ds)).
  pose proof (count_of_nonneg implicit_wins (map trial_of ds)).
  rewrite (count_trial_exact (map trial_of ds) 0 0) in F by lia.
  unfold part000_counters in F. inversion F. split; reflexivity.
Qed.

Lemma print_conclusion_cases (r : Main.test_result) :
  let cn := Main.number_of_times_noexcept_is_faster r in
  let ci := Main.number_of_times_implicit_is_faster r in
  let sn := Main.sum_of_durations_noexcept r in
  let si := Main.sum_of_durations_implicit r in
  (cn = Main.max_number_of_times /\
   Main.print_conclusion r =
     says_noexcept_faster (Main.divide_by_positive si sn)) \/
  (cn <> Main.max_number_of_times /\ ci = Main.max_number_of_times /\
   Main.print_conclusion r =
     says_implicit_faster (Main.divide_by_positive sn si)) \/
  (cn <> Main.max_number_of_times /\ ci <> Main.max_number_of_times /\
   Main.print_conclusion r = says_unclear).
Proof.
  cbv zeta. unfold Main.print_conclusion.
  destruct (Z.eqb_spec (Main.number_of_times_noexcept_is_faster r)
                       Main.max_number_of_times) as [En|En].
  - left. split; [exact En | reflexivity].
  - destruct (Z.eqb_spec (Main.number_of_times_implicit_is_faster r)
                         Main.max_number_of_times) as [Ei|Ei].
    + right. left. repeat split; [exact En | exact Ei].
    + right. right. repeat split; [exact En | exact Ei].
Qed.

Lemma summary_verdict_cases (r : Part000.test_result) :
  let cn := Part000.m_number_of_times_noexcept_is_faster r in
  let ci := Part000.m_number_of_times_implicit_is_faster r in
  0 <= cn -> 0 <= ci -> 0 < cn + ci ->
  (ci = 0 /\
   summary_verdict (Part000.test_result_dtor r) =
     [OStr noexcept_always_faster; OStr EmptyString; OStr EmptyString;
      OEndl]) \/
  (cn = 0 /\
   summary_verdict (Part000.test_result_dtor r) =
     [OStr EmptyString; OStr implicit_always_faster; OStr EmptyString;
      OEndl]) \/
  (0 < cn /\ 0 < ci /\
   summary_verdict (Part000.test_result_dtor r) =
     [OStr EmptyString; OStr EmptyString; OStr neither_always_faster;
      OEndl]).
Proof.
  cbv zeta. intros Hn Hi Hpos.
  unfold summary_verdict, Part000.test_result_dtor. cbn [skipn].
  destruct (Z.eqb_spec (Part000.m_number_of_times_implicit_is_faster r) 0)
    as [Ei|Ei];
  destruct (Z.eqb_spec (Part000.m_number_of_times_noexcept_is_faster r) 0)
    as [En|En];
  destruct (Z.ltb_spec 0 (Part000.m_number_of_times_noexcept_is_faster r));
  destruct (Z.ltb_spec 0 (Part000.m_number_of_times_implicit_is_faster r));
  try lia; cbn [andb].
  - left. split; [exact Ei | reflexivity].
  - right. left. split; [exact En | reflexivity].
  - right. right. repeat split; assumption.
Qed.

(** C2, as the code has it.  In noexcept_benchmark_main.cpp the number
    of trials is the constant [max_number_of_times] = 4, with which
    [print_conclusion] compares the counters, whatever was recorded;
    after the 4 trials of a block it prints exactly one of three
    conclusions: noexcept faster, with the ratio of the implicit to the
    noexcept sum, exactly when the noexcept counter equals the number
    of trials; implicit faster, with the inverse ratio, exactly when
    the implicit counter does; unclear otherwise.  In part_000 the
    destructor always prints both ratios, and it tests each counter for
    zero: after at least one and fewer than 2^32 trials none of which
    is a tie, it prints exactly one of three sentences: noexcept always
    faster exactly when the noexcept counter equals the number of
    trials, implicit always faster exactly when the implicit counter
    does, neither otherwise.  All ratios are computed by
    [divide_by_positive]. *)
Theorem verdict_on_finalize (ts : list trial)
    (ds : list Part000.durations_type) (N : Z) (name : string)
    (Hfour : Z.of_nat (length ts) = Main.max_number_of_times)
    (Hsome : ds <> [])
    (Hfew : Z.of_nat (length ds) < 2 ^ 32)
    (Hnotie : count_of is_tie (map trial_of ds) = 0) :
  let r := fold_left Main.update_test_result ts Main.test_result_init in
  let q := fold_left Part000.update_test_result ds
             (fst (Part000.test_result_ctor N name)) in
  let cn := Main.number_of_times_noexcept_is_faster r in
  let ci := Main.number_of_times_implicit_is_faster r in
  let sn := Main.sum_of_durations_noexcept r in
  let si := Main.sum_of_durations_implicit r in
  let qn := Part000.m_number_of_times_noexcept_is_faster q in
  let qi := Part000.m_number_of_times_implicit_is_faster q in
  let tn := Part000.m_sum_of_durations_noexcept q in
  let ti := Part000.m_sum_of_durations_implicit q in
  (summary_ratio_noexcept_implicit (Part000.test_result_dtor q) =
     Some (ODouble (Part000.divide_by_positive tn ti)) /\
   summary_ratio_implicit_noexcept (Part000.test_result_dtor q) =
     Some (ODouble (Part000.divide_by_positive ti tn))) /\
  ((cn = Z.of_nat (length ts) /\ ci <> Z.of_nat (length ts) /\
    Main.print_conclusion r =
      says_noexcept_faster (Main.divide_by_positive si sn)) \/
   (ci = Z.of_nat (length ts) /\ cn <> Z.of_nat (length ts) /\
    Main.print_conclusion r =
      says_implicit_faster (Main.divide_by_positive sn si)) \/
   (cn <> Z.of_nat (length ts) /\ ci <> Z.of_nat (length ts) /\
    Main.print_conclusion r = says_unclear)) /\
  ((qn = Z.of_nat (length ds) /\ qi <> Z.of_nat (length ds) /\
    summary_verdict (Part000.test_result_dtor q) =
      [OStr noexcept_always_faster; OStr EmptyString; OStr EmptyString;
       OEndl]) \/
   (qi = Z.of_nat (length ds) /\ qn <> Z.of_nat (length ds) /\
    summary_verdict (Part000.test_result_dtor q) =
      [OStr EmptyString; OStr implicit_always_faster; OStr EmptyString;
       OEndl]) \/
   (qn <> Z.of_nat (length ds) /\ qi <> Z.of_nat (length ds) /\
    summary_verdict (Part000.test_result_dtor q) =
      [OStr EmptyString; OStr EmptyString; OStr neither_always_faster;
       OEndl])) /\
  (forall a b : double,
     says_noexcept_faster a <> says_implicit_faster b /\
     says_noexcept_faster a <> says_unclear /\
     says_implicit_faster b <> says_unclear) /\
  (forall r' : Main.test_result,
     Main.print_conclusion r' =
     if Main.number_of_times_noexcept_is_faster r'
        =? Main.max_number_of_times
     then says_noexcept_faster
            (Main.divide_by_positive (Main.sum_of_durations_implicit r')
                                     (Main.sum_of_durations_noexcept r'))
     else if Main.number_of_times_implicit_is_faster r'
             =? Main.max_number_of_times
     then says_implicit_faster
            (Main.divide_by_positive (Main.sum_of_durations_noexcept r')
                                     (Main.sum_of_durations_implicit r'))
     else says_unclear).
Proof.
  intros r q cn ci sn si qn qi tn ti.
  split; [split; reflexivity|]. split; [|split; [|split]].
  - pose proof (main_counters_range ts) as R. cbv zeta in R.
    fold r in R. fold cn ci in R.
    destruct (print_conclusion_cases r) as [[En P]|[[En [Ei P]]|[En [Ei P]]]];
      fold cn ci sn si in En, P; try fold ci in Ei; rewrite Hfour.
    + left. unfold Main.max_number_of_times in *.
      repeat split; [exact En | lia | exact P].
    + right. left. repeat split; [exact Ei | exact En | exact P].
    + right. right. repeat split; [exact En | exact Ei | exact P].
  - destruct (part000_counters_exact N name ds Hfew) as [Xn Xi].
    fold q in Xn, Xi. fold qn in Xn. fold qi in Xi.
    pose proof (wins_and_ties (map trial_of ds)) as W.
    rewrite length_map, Hnotie in W.
    pose proof (count_of_nonneg noexcept_wins (map trial_of ds)).
    pose proof (count_of_nonneg implicit_wins (map trial_of ds)).
    assert (0 < Z.of_nat (length ds)) as Hpos
      by (destruct ds; [congruence | cbn [length]; lia]).
    pose proof (summary_verdict_cases q) as V. cbv zeta in V.
    fold qn qi in V.
    specialize (V ltac:(lia) ltac:(lia) ltac:(lia)).
    destruct V as [[E P]|[[E P]|[E1 [E2 P]]]].
    + left. repeat split; [lia | lia | exact P].
    + right. left. repeat split; [lia | lia | exact P].
    + right. right. repeat split; [lia | lia | exact P].
  - intros a b. unfold says_noexcept_faster, says_implicit_faster,
      says_unclear. repeat split; intros H; discriminate H.
  - intros r'. unfold Main.print_conclusion.
    destruct (Main.number_of_times_noexcept_is_faster r'
              =? Main.max_number_of_times); [reflexivity|].
    destruct (Main.number_of_times_implicit_is_faster r'
              =? Main.max_number_of_times); reflexivity.
Qed.

Lemma verdict_on_finalize_witness :
  let ts := scenario ++ [(of_Z 1, of_Z 2)] in
  let ds := map durations_of scenario in
  Z.of_nat (length ts) = Main.max_number_of_times /\
  ds <> [] /\
  Z.of_nat (length ds) < 2 ^ 32 /\
  count_of is_tie (map trial_of ds) = 0 /\
  summary_ratio_implicit_noexcept
    (Part000.test_result_dtor
       (fold_left Part000.update_test_result ds
          (fst (Part000.test_result_ctor 42 "inline function calls")))) =
  Some (ODouble (Part000.divide_by_positive (of_Z 22) (of_Z 12))).
Proof.
  intros ts ds.
  assert (Z.of_nat (length ts) = Main.max_number_of_times) as H1
    by reflexivity.
  assert (ds <> []) as H2 by discriminate.
  assert (Z.of_nat (length ds) < 2 ^ 32) as H3 by reflexivity.
  assert (count_of is_tie (map trial_of ds) = 0) as H4 by reflexivity.
  split; [exact H1|]. split; [exact H2|]. split; [exact H3|].
  split; [exact H4|].
  exact (proj2 (proj1 (verdict_on_finalize ts ds 42 "inline function calls"
                         H1 H2 H3 H4))).
Defined.

(** C2 as it was stated fails in both drivers.  In part_000, after a
    single trial that is a tie, the counter of noexcept is 0 and not
    the number of trials, 1, and yet the summary says that noexcept
    always appears faster, and says the same of implicit: two verdicts
    at once.  In noexcept_benchmark_main.cpp, after three trials all
    won by noexcept the counter equals the number of trials, and the
    conclusion is "unclear", the counter not being 4. *)
Lemma verdict_not_by_trial_count :
  (let ds := [durations_of (of_Z 1, of_Z 1)] in
   let q := fold_left Part000.update_test_result ds
              (fst (Part000.test_result_ctor 42 "inline function calls")) in
   Part000.m_number_of_times_noexcept_is_faster q = 0 /\
   Part000.m_number_of_times_noexcept_is_faster q <> Z.of_nat (length ds) /\
   summary_verdict (Part000.test_result_dtor q) =
     [OStr noexcept_always_faster; OStr implicit_always_faster;
      OStr EmptyString; OEndl]) /\
  (let r := fold_left Main.update_test_result scenario
              Main.test_result_init in
   Main.number_of_times_noexcept_is_faster r = Z.of_nat (length scenario) /\
   Main.print_conclusion r = says_unclear).
Proof.
  split; cbv zeta; repeat split; try reflexivity.
  intros H. discriminate H.
Qed.

(** ** The scenario of three trials won by noexcept *)

(** C6, as the code has it.  Fed to a fresh [test_result<N>] of
    part_000, the trials (5.0, 7.0), (4.0, 6.0), (3.0, 9.0) are all won
    by noexcept: its counter is 3, the other 0, the sums are 12.0 and
    22.0, the shortest durations 3.0 and 6.0.  The summary ends with
    the one sentence that noexcept always appears faster, and the ratio
    of the implicit to the noexcept sum that it prints is 22.0 / 12.0
    in double arithmetic: 8256599316845909 * 2^-52, the double nearest
    to 22/12, between 1.833 and 1.834.  Fed to the accumulator of
    noexcept_benchmark_main.cpp, the same trials give the same counters
    and sums, and [print_conclusion], which compares the counter with
    [max_number_of_times] = 4, concludes "unclear". *)
Theorem scenario_noexcept_wins_all_three :
  (forall (N : Z) (name : string),
     let q := fold_left Part000.update_test_result
                (map durations_of scenario)
                (fst (Part000.test_result_ctor N name)) in
     Part000.m_number_of_times_noexcept_is_faster q = 3 /\
     Part000.m_number_of_times_implicit_is_faster q = 0 /\
     Part000.m_sum_of_durations_noexcept q = of_Z 12 /\
     Part000.m_sum_of_durations_implicit q = of_Z 22 /\
     Part000.m_shortest_duration_noexcept q = of_Z 3 /\
     Part000.m_shortest_duration_implicit q = of_Z 6 /\
     summary_verdict (Part000.test_result_dtor q) =
       [OStr noexcept_always_faster; OStr EmptyString; OStr EmptyString;
        OEndl] /\
     summary_ratio_implicit_noexcept (Part000.test_result_dtor q) =
       Some (ODouble (S754_finite false 8256599316845909 (-52)))) /\
  Part000.divide_by_positive (of_Z 22) (of_Z 12) =
    S754_finite false 8256599316845909 (-52) /\
  div (of_Z (7 + 6 + 9)) (of_Z (5 + 4 + 3)) =
    S754_finite false 8256599316845909 (-52) /\
  Z.abs (12 * 8256599316845909 - 22 * 2 ^ 52) <= 6 /\
  1833 * 2 ^ 52 <= 1000 * 8256599316845909 <= 1834 * 2 ^ 52 /\
  (let r := fold_left Main.update_test_result scenario
              Main.test_result_init in
   Main.number_of_times_noexcept_is_faster r = 3 /\
   Main.number_of_times_implicit_is_faster r = 0 /\
   Main.sum_of_durations_noexcept r = of_Z 12 /\
   Main.sum_of_durations_implicit r = of_Z 22 /\
   Main.print_conclusion r = says_unclear).
Proof.
  split.
  - intros N name. cbv zeta. repeat split; reflexivity.
  - repeat split; try reflexivity; vm_compute; intros H; discriminate H.
Qed.

(** C6 as it was stated fails in noexcept_benchmark_main.cpp: after
    the three trials the conclusion is not that noexcept is faster,
    whatever the ratio. *)
Lemma scenario_unclear_in_main :
  let r := fold_left Main.update_test_result scenario
             Main.test_result_init in
  Main.number_of_times_noexcept_is_faster r = 3 /\
  Main.print_conclusion r = says_unclear /\
  forall ratio : double,
    Main.print_conclusion r <> says_noexcept_faster ratio.
Proof.
  cbv zeta. split; [reflexivity|]. split; [reflexivity|].
  intros ratio H. vm_compute in H. discriminate H.
Qed.

(** * Further properties *)

(** ** The shape of the recursive workloads *)

Lemma repeat_snoc {A : Type} (x : A) (n : nat) :
  repeat x n ++ [x] = x :: repeat x n.
Proof. symmetry. apply repeat_cons. Qed.

Lemma main_recursive_func_frames (k : nat) :
  Z.of_nat (S k) < 2 ^ 16 ->
  Main.recursive_func (Z.of_nat (S k)) =
  frames (S k) 0 ++ repeat DummyDtor (S k).
Proof.
  induction k as [|k IH]; intros Hk.
  - rewrite main_recursive_func_step. reflexivity.
  - rewrite main_recursive_func_step.
    rewrite ushort_decr_small by lia.
    replace (Z.of_nat (S (S k)) - 1) with (Z.of_nat (S k)) by lia.
    replace (0 <? Z.of_nat (S k)) with true
      by (symmetry; apply Z.ltb_lt; lia).
    rewrite IH by lia.
    change (frames (S (S k)) 0)
      with ([Call (0 + Z.of_nat (S (S k))); DummyCtor] ++ frames (S k) 0).
    rewrite Z.add_0_l, <- !app_assoc, repeat_snoc. reflexivity.
Qed.

Lemma part000_recursive_func_frames (k : nat) :
  Z.of_nat (S k) < 2 ^ 16 ->
  Part000.recursive_func (Z.of_nat (S k)) =
  frames k 1 ++ [Call 1] ++ repeat DummyDtor k.
Proof.
  induction k as [|k IH]; intros Hk.
  - rewrite part000_recursive_func_step. reflexivity.
  - rewrite part000_recursive_func_step.
    rewrite ushort_decr_small by lia.
    replace (Z.of_nat (S (S k)) - 1) with (Z.of_nat (S k)) by lia.
    replace (0 <? Z.of_nat (S k)) with true
      by (symmetry; apply Z.ltb_lt; lia).
    rewrite IH by lia.
    change (frames (S k) 1)
      with ([Call (1 + Z.of_nat (S k)); DummyCtor] ++ frames k 1).
    replace (1 + Z.of_nat (S k)) with (Z.of_nat (S (S k))) by lia.
    rewrite <- !app_assoc. cbn [app]. rewrite repeat_snoc. reflexivity.
Qed.

Lemma template_frames (n : nat) :
  Part000.recursive_func_template n =
  frames n 0 ++ [Call 0] ++ repeat DummyDtor n.
Proof.
  induction n as [|n IH]; [reflexivity|].
  cbn [Part000.recursive_func_template]. rewrite IH.
  change (frames (S n) 0)
    with ([Call (0 + Z.of_nat (S n)); DummyCtor] ++ frames n 0).
  rewrite Z.add_0_l, <- !app_assoc. cbn [app]. rewrite repeat_snoc.
  reflexivity.
Qed.

Lemma calls_frames (k : nat) (lo : Z) : calls (frames k lo) = Z.of_nat k.
Proof.
  unfold calls. induction k as [|k IH]; [reflexivity|].
  cbn [frames app filter is_call length]. lia.
Qed.

Lemma dummies_frames (k : nat) (lo : Z) : dummies (frames k lo) = Z.of_nat k.
Proof.
  unfold dummies. induction k as [|k IH]; [reflexivity|].
  cbn [frames app filter is_ctor length]. lia.
Qed.

Lemma filter_repeat_dtor (p : frame_event -> bool) (n : nat) :
  p DummyDtor = false -> filter p (repeat DummyDtor n) = [].
Proof.
  intros H. induction n as [|n IH]; [reflexivity|].
  cbn [repeat filter]. rewrite H. exact IH.
Qed.

(** X1.  [recursive_func] of part_000, called with a count [n] from 1
    to 65535, nests [n] calls with the counts [n], [n - 1], ..., 1;
    every call but the innermost constructs a dummy before it
    recurses, and no dummy is destroyed before the innermost call has
    returned: the [n - 1] dummies are all alive at once, and are then
    destroyed one after the other. *)
Theorem part000_recursive_func_shape (n : Z) (Hn : 1 <= n <= 65535) :
  Part000.recursive_func n =
  frames (Z.to_nat (n - 1)) 1 ++ [Call 1]
  ++ repeat DummyDtor (Z.to_nat (n - 1)).
Proof.
  pose proof (part000_recursive_func_frames (Z.to_nat (n - 1))) as F.
  replace (Z.of_nat (S (Z.to_nat (n - 1)))) with n in F by lia.
  apply F. change (2 ^ 16) with 65536. lia.
Qed.

Lemma part000_recursive_func_shape_witness :
  1 <= 3 <= 65535 /\
  Part000.recursive_func 3 =
  [Call 3; DummyCtor; Call 2; DummyCtor; Call 1; DummyDtor; DummyDtor].
Proof.
  split; [lia|].
  exact (part000_recursive_func_shape 3 ltac:(lia)).
Defined.

(** X2.  [recursive_func<T>] of noexcept_benchmark_main.cpp, called
    with a count [n] from 1 to 65535, nests [n] calls with the counts
    [n], ..., 1, each of which constructs its dummy on entry; the [n]
    dummies are all alive when the innermost call tests its count, and
    are destroyed as the calls return. *)
Theorem main_recursive_func_shape (n : Z) (Hn : 1 <= n <= 65535) :
  Main.recursive_func n =
  frames (Z.to_nat n) 0 ++ repeat DummyDtor (Z.to_nat n).
Proof.
  pose proof (main_recursive_func_frames (Z.to_nat (n - 1))) as F.
  replace (Z.of_nat (S (Z.to_nat (n - 1)))) with n in F by lia.
  replace (S (Z.to_nat (n - 1))) with (Z.to_nat n) in F by lia.
  apply F. change (2 ^ 16) with 65536. lia.
Qed.

Lemma main_recursive_func_shape_witness :
  1 <= 2 <= 65535 /\
  Main.recursive_func 2 =
  [Call 2; DummyCtor; Call 1; DummyCtor; DummyDtor; DummyDtor].
Proof.
  split; [lia|].
  exact (main_recursive_func_shape 2 ltac:(lia)).
Defined.

(** X3.  [recursive_func_template<N>] instantiates [N + 1] functions,
    with the counts [N], ..., 0, and constructs [N] dummies, which are
    all alive when the empty specialization for 0 runs.  For the same
    count from 1 to 65535 it therefore makes one call more and
    constructs one dummy more than [recursive_func] of the same
    file. *)
Theorem recursive_func_template_shape (N : nat) :
  Part000.recursive_func_template N =
    frames N 0 ++ [Call 0] ++ repeat DummyDtor N /\
  calls (Part000.recursive_func_template N) = Z.of_nat N + 1 /\
  dummies (Part000.recursive_func_template N) = Z.of_nat N /\
  (1 <= Z.of_nat N <= 65535 ->
   calls (Part000.recursive_func_template N)
     = calls (Part000.recursive_func (Z.of_nat N)) + 1 /\
   dummies (Part000.recursive_func_template N)
     = dummies (Part000.recursive_func (Z.of_nat N)) + 1).
Proof.
  assert (calls (Part000.recursive_func_template N) = Z.of_nat N + 1) as C.
  { rewrite template_frames. unfold calls.
    rewrite !filter_app, (filter_repeat_dtor is_call) by reflexivity.
    rewrite !length_app. fold (calls (frames N 0)). cbn [filter is_call length].
    pose proof (calls_frames N 0) as E. unfold calls in E. lia. }
  assert (dummies (Part000.recursive_func_template N) = Z.of_nat N) as D.
  { rewrite template_frames. unfold dummies.
    rewrite !filter_app, (filter_repeat_dtor is_ctor) by reflexivity.
    rewrite !length_app. cbn [filter is_ctor length].
    pose proof (dummies_frames N 0) as E. unfold dummies in E. lia. }
  split; [apply template_frames|]. split; [exact C|]. split; [exact D|].
  intros HN.
  destruct (part000_recursive_func_count (Nat.pred N)) as [Hc Hd].
  - change (2 ^ 16) with 65536. lia.
  - replace (S (Nat.pred N)) with N in * by lia.
    rewrite C, D, Hc, Hd. lia.
Qed.

(** ** Doubles that are not negative *)

Lemma shr_1_nonneg (mrs : shr_record) :
  0 <= shr_m mrs -> 0 <= shr_m (shr_1 mrs).
Proof.
  destruct mrs as [m r s]. cbn [shr_m]. intros H.
  destruct m as [|p|p]; [| |lia]; unfold shr_1.
  - cbn [shr_m]. lia.
  - destruct p; cbn [shr_m]; lia.
Qed.

Lemma iter_pos_invariant {A : Type} (P : A -> Prop) (f : A -> A) :
  (forall x, P x -> P (f x)) ->
  forall (n : positive) (x : A), P x -> P (iter_pos f n x).
Proof.
  intros Hf. induction n as [n IH|n IH|]; intros x Hx; cbn [iter_pos].
  - apply IH, IH, Hf, Hx.
  - apply IH, IH, Hx.
  - apply Hf, Hx.
Qed.

Lemma shr_fexp_nonneg (m e : Z) (l : location) :
  0 <= m -> 0 <= shr_m (fst (shr_fexp prec emax m e l)).
Proof.
  intros H. unfold shr_fexp, shr.
  assert (shr_m (shr_record_of_loc m l) = m) as E
    by (destruct l as [|[]]; reflexivity).
  destruct (fexp prec emax (Zdigits2 m + e) - e) as [|p|p]; cbn [fst];
    try (rewrite E; exact H).
  apply (iter_pos_invariant (fun r => 0 <= shr_m r)).
  - apply shr_1_nonneg.
  - rewrite E. exact H.
Qed.

Lemma round_nearest_even_nonneg (m : Z) (l : location) :
  0 <= m -> 0 <= round_nearest_even m l.
Proof.
  intros H. unfold round_nearest_even.
  destruct l as [|[]]; try destruct (Z.even m); lia.
Qed.

Lemma binary_round_aux_nonneg (mz ez : Z) (lz : location) :
  0 <= mz ->
  nonneg (binary_round_aux prec emax false mz ez lz) = true.
Proof.
  intros H. unfold binary_round_aux.
  pose proof (shr_fexp_nonneg mz ez lz H) as H1.
  destruct (shr_fexp prec emax mz ez lz) as [mrs' e']. cbn [fst] in H1.
  pose proof (round_nearest_even_nonneg _ (loc_of_shr_record mrs') H1) as H2.
  pose proof (shr_fexp_nonneg _ e' loc_Exact H2) as H3.
  destruct (shr_fexp prec emax
              (round_nearest_even (shr_m mrs') (loc_of_shr_record mrs'))
              e' loc_Exact) as [mrs'' e''].
  cbn [fst] in H3.
  destruct (shr_m mrs'') as [|p|p]; [reflexivity| |lia].
  destruct (e'' <=? emax - prec); reflexivity.
Qed.

Lemma nonneg_cases (x : double) :
  nonneg x = true ->
  (exists s, x = S754_zero s) \/ x = S754_infinity false \/
  (exists m e, x = S754_finite false m e).
Proof.
  unfold nonneg, leb, SFleb, zero.
  destruct x as [s|s| |s m e]; cbn [SFcompare]; try destruct s;
    intros H; try discriminate H; eauto.
Qed.

Lemma add_nonneg (x y : double) :
  nonneg x = true -> nonneg y = true -> nonneg (add x y) = true.
Proof.
  intros Hx Hy.
  destruct (nonneg_cases x Hx) as [[sx ->]|[->|[mx [ex ->]]]];
  destruct (nonneg_cases y Hy) as [[sy ->]|[->|[my [ey ->]]]];
    try reflexivity; try exact Hx; try exact Hy.
  - destruct sx, sy; reflexivity.
  - unfold add, SFadd. cbn [cond_Zopp].
    unfold binary_normalize.
    change (Z.pos (fst (shl_align mx ex (Z.min ex ey))) +
            Z.pos (fst (shl_align my ey (Z.min ex ey))))
      with (Z.pos (fst (shl_align mx ex (Z.min ex ey)) +
                   fst (shl_align my ey (Z.min ex ey)))).
    unfold binary_round.
    destruct (shl_align _ _ _) as [mz ez].
    apply binary_round_aux_nonneg. lia.
Qed.

Lemma div_core_quotient_nonneg (mx my : positive) (ex ey : Z) :
  0 <= fst (fst (SFdiv_core_binary prec emax (Zpos mx) ex (Zpos my) ey)).
Proof.
  unfold SFdiv_core_binary. cbv zeta.
  set (s := ex - ey - _).
  set (m' := match s with Z0 => Zpos mx | Zpos _ => Z.shiftl (Zpos mx) s
                     | Zneg _ => 0 end).
  assert (0 <= m') as Hm.
  { unfold m'. destruct s as [|p|p]; try lia.
    apply Z.shiftl_nonneg. lia. }
  rewrite (surjective_pairing (Z.div_eucl m' (Zpos my))). cbn [fst].
  change (fst (Z.div_eucl m' (Zpos my))) with (m' / Zpos my).
  apply Z.div_pos; lia.
Qed.

Lemma positive_cases (y : double) :
  ltb zero y = true ->
  y = S754_infinity false \/ exists m e, y = S754_finite false m e.
Proof.
  unfold ltb, SFltb, zero.
  destruct y as [s|s| |s m e]; cbn [SFcompare]; try destruct s;
    intros H; try discriminate H; eauto.
Qed.

Lemma div_nonneg (x y : double) :
  nonneg x = true -> ltb zero y = true ->
  (x = infinity /\ y = infinity /\ div x y = S754_nan) \/
  nonneg (div x y) = true.
Proof.
  intros Hx Hy.
  destruct (nonneg_cases x Hx) as [[sx ->]|[->|[mx [ex ->]]]];
  destruct (positive_cases y Hy) as [->|[my [ey ->]]].
  - right. destruct sx; reflexivity.
  - right. destruct sx; reflexivity.
  - left. repeat split.
  - right. reflexivity.
  - right. reflexivity.
  - right. unfold div, SFdiv. cbn [xorb].
    pose proof (div_core_quotient_nonneg mx my ex ey) as Q.
    destruct (SFdiv_core_binary prec emax (Zpos mx) ex (Zpos my) ey)
      as [[mz ez] lz].
    cbn [fst] in Q. apply binary_round_aux_nonneg. exact Q.
Qed.

Lemma mul_nonneg (x : double) (my : positive) (ey : Z) :
  nonneg x = true -> nonneg (mul x (S754_finite false my ey)) = true.
Proof.
  intros Hx.
  destruct (nonneg_cases x Hx) as [[sx ->]|[->|[mx [ex ->]]]].
  - destruct sx; reflexivity.
  - reflexivity.
  - unfold mul, SFmul. cbn [xorb]. apply binary_round_aux_nonneg. lia.
Qed.

Lemma of_Z_nonneg (c : Z) : 0 <= c -> nonneg (of_Z c) = true.
Proof.
  intros H. destruct c as [|p|p]; [reflexivity| |lia].
  unfold of_Z, binary_normalize, binary_round.
  destruct (shl_align _ _ _) as [mz ez].
  apply binary_round_aux_nonneg. lia.
Qed.

Lemma ltb_trans (a b c : double) :
  ltb a b = true -> ltb b c = true -> ltb a c = true.
Proof.
  unfold ltb, SFltb.
  destruct a as [sa|sa| |sa ma ea], b as [sb|sb| |sb mb eb],
           c as [sc|sc| |sc mc ec];
    cbn [SFcompare];
    try destruct sa; try destruct sb; try destruct sc;
    try (intros H1 H2; first [discriminate H1 | discriminate H2 | reflexivity]).
  all: change (Pos.compare_cont Eq ma mb) with (Pos.compare ma mb);
    change (Pos.compare_cont Eq mb mc) with (Pos.compare mb mc);
    change (Pos.compare_cont Eq ma mc) with (Pos.compare ma mc);
    destruct (Z.compare_spec ea eb), (Z.compare_spec eb ec),
             (Z.compare_spec ea ec);
    try (exfalso; lia);
    try (intros A1 A2;
         first [discriminate A1 | discriminate A2 | reflexivity]);
    destruct (Pos.compare_spec ma mb), (Pos.compare_spec mb mc),
             (Pos.compare_spec ma mc);
    cbn [CompOpp]; intros A1 A2;
    first [discriminate A1 | discriminate A2 | reflexivity | exfalso; lia].
Qed.

Lemma ltb_irrefl (a : double) : ltb a a = false.
Proof.
  destruct (ltb a a) eqn:E; [|reflexivity].
  pose proof (ltb_asym a a E). congruence.
Qed.

(** ** The sums and the shortest durations of an accumulator *)

Lemma main_sums_fold (ts : list trial) :
  forall r : Main.test_result,
    Main.sum_of_durations_noexcept (fold_left Main.update_test_result ts r)
      = fold_left add (map fst ts) (Main.sum_of_durations_noexcept r) /\
    Main.sum_of_durations_implicit (fold_left Main.update_test_result ts r)
      = fold_left add (map snd ts) (Main.sum_of_durations_implicit r).
Proof.
  induction ts as [|t ts IH]; intros r; [split; reflexivity|].
  cbn [fold_left map]. apply IH.
Qed.

Lemma part000_sums_fold (ds : list Part000.durations_type) :
  forall r : Part000.test_result,
    Part000.m_sum_of_durations_noexcept
      (fold_left Part000.update_test_result ds r)
      = fold_left add (map Part000.duration_noexcept ds)
                  (Part000.m_sum_of_durations_noexcept r) /\
    Part000.m_sum_of_durations_implicit
      (fold_left Part000.update_test_result ds r)
      = fold_left add (map Part000.duration_implicit ds)
                  (Part000.m_sum_of_durations_implicit r).
Proof.
  induction ds as [|d ds IH]; intros r; [split; reflexivity|].
  cbn [fold_left map]. apply IH.
Qed.

Lemma part000_shortest_fold (ds : list Part000.durations_type) :
  forall r : Part000.test_result,
    Part000.m_shortest_duration_noexcept
      (fold_left Part000.update_test_result ds r)
      = fold_left min (map Part000.duration_noexcept ds)
                  (Part000.m_shortest_duration_noexcept r) /\
    Part000.m_shortest_duration_implicit
      (fold_left Part000.update_test_result ds r)
      = fold_left min (map Part000.duration_implicit ds)
                  (Part000.m_shortest_duration_implicit r).
Proof.
  induction ds as [|d ds IH]; intros r; [split; reflexivity|].
  cbn [fold_left map]. apply IH.
Qed.

Lemma fold_add_nonneg (l : list double) :
  forall s0 : double,
    nonneg s0 = true -> Forall (fun d => nonneg d = true) l ->
    nonneg (fold_left add l s0) = true.
Proof.
  induction l as [|d l IH]; intros s0 H0 Hl; [exact H0|].
  inversion Hl as [|? ? Hd Hl']; subst. cbn [fold_left].
  apply IH; [apply add_nonneg; assumption | exact Hl'].
Qed.

(** A running minimum never goes up. *)
Lemma fold_min_below (l : list double) :
  forall s0 : double,
    fold_left min l s0 = s0 \/ ltb (fold_left min l s0) s0 = true.
Proof.
  induction l as [|d l IH]; intros s0; [left; reflexivity|].
  cbn [fold_left]. destruct (IH (min s0 d)) as [E|L]; unfold min in *.
  - rewrite E. destruct (ltb d s0) eqn:C; [right; exact C | left; reflexivity].
  - destruct (ltb d s0) eqn:C; [|right; exact L].
    right. exact (ltb_trans _ _ _ L C).
Qed.

Lemma fold_min_member (l : list double) :
  forall s0 : double,
    fold_left min l s0 = s0 \/ In (fold_left min l s0) l.
Proof.
  induction l as [|d l IH]; intros s0; [left; reflexivity|].
  cbn [fold_left]. destruct (IH (min s0 d)) as [E|I].
  - rewrite E. unfold min. destruct (ltb d s0);
      [right; left; reflexivity | left; reflexivity].
  - right. right. exact I.
Qed.

Lemma fold_min_lower_bound (l : list double) :
  forall (s0 d : double), In d l -> ltb d (fold_left min l s0) = false.
Proof.
  induction l as [|d' l IH]; intros s0 d Hin; [destruct Hin|].
  cbn [fold_left]. destruct Hin as [->|Hin]; [|apply IH; exact Hin].
  destruct (ltb d (fold_left min l (min s0 d))) eqn:C; [exfalso|reflexivity].
  destruct (fold_min_below l (min s0 d)) as [E|L]; unfold min in *.
  - rewrite E in C. destruct (ltb d s0) eqn:C0.
    + rewrite ltb_irrefl in C. discriminate C.
    + congruence.
  - destruct (ltb d s0) eqn:C0.
    + pose proof (ltb_asym _ _ C). congruence.
    + pose proof (ltb_trans _ _ _ C L). congruence.
Qed.

Lemma ltb_not_nan (a b : double) : ltb a b = true -> is_nan a = false.
Proof. destruct a; [reflexivity | reflexivity | discriminate | reflexivity]. Qed.

(** X4.  The shortest durations of [test_result<N>], after any sequence
    of trials: each is never a NaN; it is +infinity, its initial value,
    or one of the durations recorded for its variant; and no duration
    recorded for its variant is less than it. *)
Theorem shortest_duration_is_minimum (N : Z) (name : string)
    (ds : list Part000.durations_type) :
  let r := fold_left Part000.update_test_result ds
             (fst (Part000.test_result_ctor N name)) in
  let sn := Part000.m_shortest_duration_noexcept r in
  let si := Part000.m_shortest_duration_implicit r in
  (is_nan sn = false /\
   (sn = infinity \/ In sn (map Part000.duration_noexcept ds)) /\
   forall d, In d (map Part000.duration_noexcept ds) -> ltb d sn = false) /\
  (is_nan si = false /\
   (si = infinity \/ In si (map Part000.duration_implicit ds)) /\
   forall d, In d (map Part000.duration_implicit ds) -> ltb d si = false).
Proof.
  cbv zeta.
  destruct (part000_shortest_fold ds (fst (Part000.test_result_ctor N name)))
    as [En Ei].
  rewrite En, Ei. cbn [fst Part000.test_result_ctor
                       Part000.m_shortest_duration_noexcept
                       Part000.m_shortest_duration_implicit].
  split; (split; [|split]).
  - destruct (fold_min_below (map Part000.duration_noexcept ds) infinity)
      as [E|L]; [rewrite E; reflexivity | exact (ltb_not_nan _ _ L)].
  - apply fold_min_member.
  - intros d. apply fold_min_lower_bound.
  - destruct (fold_min_below (map Part000.duration_implicit ds) infinity)
      as [E|L]; [rewrite E; reflexivity | exact (ltb_not_nan _ _ L)].
  - apply fold_min_member.
  - intros d. apply fold_min_lower_bound.
Qed.

(** The denominator [divide_by_positive] uses is positive. *)
Lemma denominator_positive (y : double) :
  ltb zero (if ltb zero y then y else denorm_min) = true.
Proof. destruct (ltb zero y) eqn:E; [exact E | reflexivity]. Qed.

Lemma divide_by_positive_nonneg (x y : double) :
  nonneg x = true ->
  (x = infinity /\ y = infinity /\ Part000.divide_by_positive x y = S754_nan)
  \/ nonneg (Part000.divide_by_positive x y) = true.
Proof.
  intros Hx. unfold Part000.divide_by_positive.
  destruct (div_nonneg x _ Hx (denominator_positive y)) as [[Ex [Ey En]]|H].
  - left. split; [exact Ex|]. split; [|exact En].
    destruct (ltb zero y); [exact Ey | discriminate Ey].
  - right. exact H.
Qed.

(** X5.  [divide_by_positive], in both drivers, for a numerator [x]
    that is not negative and any denominator [y] whatever: the result
    is not negative, with one exception, +infinity divided by
    +infinity, which is a NaN.  In particular a negative, zero or NaN
    denominator never makes the ratio negative or a NaN: [x] is then
    divided by [denorm_min]. *)
Theorem divide_by_positive_sign (x y : double) (Hx : nonneg x = true) :
  Main.divide_by_positive x y = Part000.divide_by_positive x y /\
  ((x = infinity /\ y = infinity /\
    Part000.divide_by_positive x y = S754_nan) \/
   nonneg (Part000.divide_by_positive x y) = true) /\
  (ltb zero y = false ->
   Part000.divide_by_positive x y = div x denorm_min /\
   nonneg (Part000.divide_by_positive x y) = true).
Proof.
  split; [reflexivity|]. split; [apply divide_by_positive_nonneg; exact Hx|].
  intros Hy. split.
  - unfold Part000.divide_by_positive. rewrite Hy. reflexivity.
  - destruct (divide_by_positive_nonneg x y Hx) as [[_ [Ey _]]|H];
      [|exact H].
    rewrite Ey in Hy. discriminate Hy.
Qed.

Lemma divide_by_positive_sign_witness :
  nonneg (of_Z 22) = true /\
  nonneg (Part000.divide_by_positive (of_Z 22) (S754_infinity true)) = true.
Proof.
  split; [reflexivity|].
  exact (proj2 (proj2 (proj2 (divide_by_positive_sign
                                (of_Z 22) (S754_infinity true) eq_refl))
                      eq_refl)).
Defined.

(** X6.  When no recorded duration is negative or a NaN, the sums of
    an accumulator are not negative and not a NaN either, in both
    drivers and after any number of trials (a sum may overflow to
    +infinity), and each ratio the summary of part_000 prints is not
    negative, or is a NaN when both sums are +infinity. *)
Theorem sums_of_nonneg_durations (ts : list trial) (N : Z) (name : string)
    (ds : list Part000.durations_type)
    (Hts : Forall (fun t => nonneg (fst t) = true /\ nonneg (snd t) = true)
                  ts)
    (Hds : Forall (fun d => nonneg (Part000.duration_noexcept d) = true /\
                            nonneg (Part000.duration_implicit d) = true)
                  ds) :
  let r := fold_left Main.update_test_result ts Main.test_result_init in
  let q := fold_left Part000.update_test_result ds
             (fst (Part000.test_result_ctor N name)) in
  let tn := Part000.m_sum_of_durations_noexcept q in
  let ti := Part000.m_sum_of_durations_implicit q in
  nonneg (Main.sum_of_durations_noexcept r) = true /\
  nonneg (Main.sum_of_durations_implicit r) = true /\
  nonneg tn = true /\ nonneg ti = true /\
  (exists ratio,
     summary_ratio_noexcept_implicit (Part000.test_result_dtor q)
       = Some (ODouble ratio) /\
     (nonneg ratio = true \/
      (ratio = S754_nan /\ tn = infinity /\ ti = infinity))) /\
  (exists ratio,
     summary_ratio_implicit_noexcept (Part000.test_result_dtor q)
       = Some (ODouble ratio) /\
     (nonneg ratio = true \/
      (ratio = S754_nan /\ tn = infinity /\ ti = infinity))).
Proof.
  cbv zeta.
  destruct (main_sums_fold ts Main.test_result_init) as [Mn Mi].
  destruct (part000_sums_fold ds (fst (Part000.test_result_ctor N name)))
    as [Pn Pi].
  assert (Forall (fun d => nonneg d = true) (map fst ts)
          /\ Forall (fun d => nonneg d = true) (map snd ts)) as [F1 F2].
  { split; apply Forall_map; eapply Forall_impl; try exact Hts;
      intros t [H1 H2]; assumption. }
  assert (Forall (fun d => nonneg d = true)
                 (map Part000.duration_noexcept ds)
          /\ Forall (fun d => nonneg d = true)
                    (map Part000.duration_implicit ds)) as [G1 G2].
  { split; apply Forall_map; eapply Forall_impl; try exact Hds;
      intros t [H1 H2]; assumption. }
  assert (nonneg (Part000.m_sum_of_durations_noexcept
                    (fold_left Part000.update_test_result ds
                       (fst (Part000.test_result_ctor N name)))) = true)
    as Hn by (rewrite Pn; apply fold_add_nonneg; [reflexivity | exact G1]).
  assert (nonneg (Part000.m_sum_of_durations_implicit
                    (fold_left Part000.update_test_result ds
                       (fst (Part000.test_result_ctor N name)))) = true)
    as Hi by (rewrite Pi; apply fold_add_nonneg; [reflexivity | exact G2]).
  split; [rewrite Mn; apply fold_add_nonneg; [reflexivity | exact F1]|].
  split; [rewrite Mi; apply fold_add_nonneg; [reflexivity | exact F2]|].
  split; [exact Hn|]. split; [exact Hi|]. split.
  - eexists. split; [reflexivity|].
    destruct (divide_by_positive_nonneg _
                (Part000.m_sum_of_durations_implicit
                   (fold_left Part000.update_test_result ds
                      (fst (Part000.test_result_ctor N name)))) Hn)
      as [[E1 [E2 E3]]|H]; [right | left; exact H].
    split; [exact E3 | split; assumption].
  - eexists. split; [reflexivity|].
    destruct (divide_by_positive_nonneg _
                (Part000.m_sum_of_durations_noexcept
                   (fold_left Part000.update_test_result ds
                      (fst (Part000.test_result_ctor N name)))) Hi)
      as [[E1 [E2 E3]]|H]; [right | left; exact H].
    split; [exact E3 | split; assumption].
Qed.

Lemma sums_of_nonneg_durations_witness :
  Forall (fun t => nonneg (fst t) = true /\ nonneg (snd t) = true) scenario /\
  nonneg (Main.sum_of_durations_noexcept
            (fold_left Main.update_test_result scenario
                       Main.test_result_init)) = true.
Proof.
  assert (Forall (fun t => nonneg (fst t) = true /\ nonneg (snd t) = true)
                 scenario) as H1
    by (repeat constructor).
  assert (Forall (fun d => nonneg (Part000.duration_noexcept d) = true /\
                           nonneg (Part000.duration_implicit d) = true)
                 (map durations_of scenario)) as H2
    by (repeat constructor).
  split; [exact H1|].
  exact (proj1 (sums_of_nonneg_durations scenario 42 "template recursion"
                  (map durations_of scenario) H1 H2)).
Defined.

(** ** A duration that is a NaN *)

Lemma is_nan_eq (x : double) : is_nan x = true -> x = S754_nan.
Proof. destruct x; try discriminate; reflexivity. Qed.

Lemma add_nan_r (x : double) : add x S754_nan = S754_nan.
Proof. destruct x; reflexivity. Qed.

Lemma fold_add_nan (l : list double) : fold_left add l S754_nan = S754_nan.
Proof. induction l as [|d l IH]; [reflexivity | exact IH]. Qed.

Lemma ltb_nan_r (x : double) : ltb x S754_nan = false.
Proof. destruct x; reflexivity. Qed.

(** X7.  A trial whose noexcept duration is a NaN, recorded by
    [test_result<N>] among any other trials: it counts as a tie
    (neither counter changes) and leaves the shortest noexcept
    duration as it was, but from then on the sum of the noexcept
    durations is a NaN, whatever is recorded later.  In the summary the
    ratio noexcept/implicit is then a NaN, while the ratio
    implicit/noexcept is the sum of the implicit durations divided by
    [denorm_min], which replaces the NaN denominator. *)
Theorem nan_duration_poisons_sum (N : Z) (name : string)
    (ds1 ds2 : list Part000.durations_type) (d : Part000.durations_type)
    (Hnan : is_nan (Part000.duration_noexcept d) = true) :
  let before := fold_left Part000.update_test_result ds1
                  (fst (Part000.test_result_ctor N name)) in
  let after := Part000.update_test_result before d in
  let r := fold_left Part000.update_test_result (ds1 ++ d :: ds2)
             (fst (Part000.test_result_ctor N name)) in
  Part000.m_number_of_times_noexcept_is_faster after
    = Part000.m_number_of_times_noexcept_is_faster before /\
  Part000.m_number_of_times_implicit_is_faster after
    = Part000.m_number_of_times_implicit_is_faster before /\
  Part000.m_shortest_duration_noexcept after
    = Part000.m_shortest_duration_noexcept before /\
  Part000.m_sum_of_durations_noexcept r = S754_nan /\
  summary_ratio_noexcept_implicit (Part000.test_result_dtor r)
    = Some (ODouble S754_nan) /\
  summary_ratio_implicit_noexcept (Part000.test_result_dtor r)
    = Some (ODouble (div (Part000.m_sum_of_durations_implicit r)
                         denorm_min)).
Proof.
  intros before after r. apply is_nan_eq in Hnan.
  assert (Part000.m_sum_of_durations_noexcept r = S754_nan) as Hsum.
  { unfold r. rewrite fold_left_app. cbn [fold_left].
    destruct (part000_sums_fold ds2
                (Part000.update_test_result
                   (fold_left Part000.update_test_result ds1
                      (fst (Part000.test_result_ctor N name))) d)) as [E _].
    rewrite E. unfold Part000.update_test_result at 1.
    cbn [Part000.m_sum_of_durations_noexcept]. rewrite Hnan, add_nan_r.
    apply fold_add_nan. }
  unfold after, Part000.update_test_result, min.
  cbn [Part000.m_number_of_times_noexcept_is_faster
       Part000.m_number_of_times_implicit_is_faster
       Part000.m_shortest_duration_noexcept].
  rewrite Hnan, ltb_nan_r.
  change (ltb S754_nan (Part000.duration_implicit d)) with false.
  change (ltb S754_nan (Part000.m_shortest_duration_noexcept before))
    with false.
  repeat (split; [reflexivity|]).
  split; [exact Hsum|].
  unfold summary_ratio_noexcept_implicit, summary_ratio_implicit_noexcept,
    Part000.test_result_dtor, Part000.divide_by_positive.
  cbn [nth_error]. rewrite Hsum. split; reflexivity.
Qed.

Lemma nan_duration_poisons_sum_witness :
  let d := {| Part000.duration_noexcept := S754_nan;
              Part000.duration_implicit := of_Z 1 |} in
  is_nan (Part000.duration_noexcept d) = true /\
  Part000.m_sum_of_durations_noexcept
    (fold_left Part000.update_test_result
       (map durations_of scenario ++ d :: map durations_of scenario)
       (fst (Part000.test_result_ctor 42 "template recursion")))
  = S754_nan.
Proof.
  intros d. split; [reflexivity|].
  exact (proj1 (proj2 (proj2 (proj2
           (nan_duration_poisons_sum 42 "template recursion"
              (map durations_of scenario) (map durations_of scenario)
              d eq_refl))))).
Defined.

(** ** The sentences of the summary, and a test case without trials *)

Lemma count_of_all (p : trial -> bool) (ts : list trial) :
  count_of p ts = Z.of_nat (length ts) <-> forallb p ts = true.
Proof.
  unfold count_of. induction ts as [|t ts IH]; [split; reflexivity|].
  cbn [filter forallb length]. pose proof (filter_length_le p ts) as L.
  destruct (p t); cbn [length andb].
  - rewrite <- IH. lia.
  - split; [lia | discriminate].
Qed.

Lemma main_counters_exact (ts : list trial) :
  Z.of_nat (length ts) < 2 ^ 32 ->
  let r := fold_left Main.update_test_result ts Main.test_result_init in
  Main.number_of_times_noexcept_is_faster r = count_of noexcept_wins ts /\
  Main.number_of_times_implicit_is_faster r = count_of implicit_wins ts.
Proof.
  intros Hlt. cbv zeta.
  pose proof (main_counters_fold ts Main.test_result_init) as F.
  change (main_counters Main.test_result_init) with (0, 0) in F.
  pose proof (wins_and_ties ts) as W.
  pose proof (count_of_nonneg is_tie ts).
  pose proof (count_of_nonneg noexcept_wins ts).
  pose proof (count_of_nonneg implicit_wins ts).
  rewrite (count_trial_exact ts 0 0) in F by lia.
  unfold main_counters in F. inversion F. split; reflexivity.
Qed.

(** X8.  The sentences that end the summary of part_000, after fewer
    than 2^32 trials, in terms of the trials: "noexcept always appears
    faster" is printed exactly when implicit won no trial, "implicit
    always appears faster" exactly when noexcept won no trial, and
    "neither" exactly when each won at least one.  So at least one
    sentence is always printed, and both "always" sentences are printed
    together exactly when no trial had a winner: when all trials were
    ties, or there was no trial at all. *)
Theorem summary_sentences_by_wins (N : Z) (name : string)
    (ds : list Part000.durations_type)
    (Hfew : Z.of_nat (length ds) < 2 ^ 32) :
  let q := fold_left Part000.update_test_result ds
             (fst (Part000.test_result_ctor N name)) in
  let wn := count_of noexcept_wins (map trial_of ds) in
  let wi := count_of implicit_wins (map trial_of ds) in
  summary_verdict (Part000.test_result_dtor q) =
    [OStr (if wi =? 0 then noexcept_always_faster else EmptyString);
     OStr (if wn =? 0 then implicit_always_faster else EmptyString);
     OStr (if (0 <? wn) && (0 <? wi) then neither_always_faster
           else EmptyString);
     OEndl] /\
  summary_verdict (Part000.test_result_dtor q) <>
    [OStr EmptyString; OStr EmptyString; OStr EmptyString; OEndl] /\
  (summary_verdict (Part000.test_result_dtor q) =
     [OStr noexcept_always_faster; OStr implicit_always_faster;
      OStr EmptyString; OEndl]
   <-> forallb is_tie (map trial_of ds) = true).
Proof.
  intros q wn wi.
  destruct (part000_counters_exact N name ds Hfew) as [Xn Xi].
  fold q in Xn, Xi. fold wn in Xn. fold wi in Xi.
  assert (summary_verdict (Part000.test_result_dtor q) =
          [OStr (if wi =? 0 then noexcept_always_faster else EmptyString);
           OStr (if wn =? 0 then implicit_always_faster else EmptyString);
           OStr (if (0 <? wn) && (0 <? wi) then neither_always_faster
                 else EmptyString);
           OEndl]) as E.
  { unfold summary_verdict, Part000.test_result_dtor. cbn [skipn].
    rewrite Xn, Xi. reflexivity. }
  pose proof (count_of_nonneg noexcept_wins (map trial_of ds)) as Pn.
  pose proof (count_of_nonneg implicit_wins (map trial_of ds)) as Pi.
  fold wn in Pn. fold wi in Pi.
  pose proof (wins_and_ties (map trial_of ds)) as W. fold wn wi in W.
  pose proof (count_of_all is_tie (map trial_of ds)) as A.
  split; [exact E|]. rewrite E. split.
  - destruct (Z.eqb_spec wi 0), (Z.eqb_spec wn 0),
      (Z.ltb_spec 0 wn), (Z.ltb_spec 0 wi); cbn [andb];
      try lia; intros Hd; discriminate Hd.
  - split.
    + intros Hd. apply A.
      destruct (Z.eqb_spec wi 0), (Z.eqb_spec wn 0); try discriminate Hd.
      lia.
    + intros Hd. apply A in Hd.
      destruct (Z.eqb_spec wi 0), (Z.eqb_spec wn 0),
        (Z.ltb_spec 0 wn), (Z.ltb_spec 0 wi); cbn [andb]; try lia.
      reflexivity.
Qed.

Lemma summary_sentences_by_wins_witness :
  let ds := [durations_of (of_Z 2, of_Z 2); durations_of (of_Z 3, of_Z 3)] in
  Z.of_nat (length ds) < 2 ^ 32 /\
  summary_verdict
    (Part000.test_result_dtor
       (fold_left Part000.update_test_result ds
          (fst (Part000.test_result_ctor 42 "template recursion")))) <>
  [OStr EmptyString; OStr EmptyString; OStr EmptyString; OEndl].
Proof.
  intros ds. split; [reflexivity|].
  exact (proj1 (proj2 (summary_sentences_by_wins 42 "template recursion"
                         ds eq_refl))).
Defined.

(** X9.  In a build that defines
    [NOEXCEPT_BENCHMARK_NUMBER_OF_ITERATIONS] as a value that is zero or
    negative once converted to [int], a test case of part_000 makes no
    measurement, so that it completes whatever the measured code would
    do, leaves the machine as it was, and still prints its header and
    its summary: both shortest durations are +infinity, both sums and
    both ratios are 0, and the summary says of each variant that it
    always appears faster. *)
Theorem test_case_without_trials (b : build)
    (Hnone : Part000.number_of_iterations b <= 0) :
  forall (M : Type) (unwinds : bool) (N : Z) (name : string)
         (mp : M -> measured Part000.durations_type M) (m : M)
         (out : list out_item),
    Part000.test_case unwinds b N name mp (m, out) =
    Completed m
      (out ++ snd (Part000.test_result_ctor N name)
           ++ [OStr (nl +++ "Shortest duration: "); ODouble infinity;
               OStr " sec. (explicit 'noexcept')";
               OStr (nl +++ "Shortest duration: "); ODouble infinity;
               OStr " sec. (implicit exception specification)";
               OStr (nl +++ "Sum of durations: "); ODouble zero;
               OStr " sec. (explicit 'noexcept')";
               OStr (nl +++ "Sum of durations: "); ODouble zero;
               OStr " sec. (implicit exception specification)";
               OStr (nl +++ "Ratio sum of durations noexcept/implicit: ");
               ODouble zero;
               OStr (nl +++ "Ratio sum of durations implicit/noexcept: ");
               ODouble zero;
               OStr noexcept_always_faster;
               OStr implicit_always_faster;
               OStr EmptyString; OEndl]).
Proof.
  intros M unwinds N name mp m out.
  pose proof (part000_test_case_run unwinds b N name mp m out) as R.
  cbv zeta in R.
  replace (Z.to_nat (Part000.number_of_iterations b)) with 0%nat in R by lia.
  exact R.
Qed.

Lemma test_case_without_trials_witness :
  let zero_iterations :=
    {| NDEBUG := true;
       defined_NUMBER_OF_ITERATIONS := Some 0;
       defined_THROW_EXCEPTION := None |} in
  let wrapped :=
    {| NDEBUG := true;
       defined_NUMBER_OF_ITERATIONS := Some 4294967296;
       defined_THROW_EXCEPTION := None |} in
  Part000.number_of_iterations zero_iterations <= 0 /\
  Part000.number_of_iterations wrapped <= 0 /\
  (exists out,
     Part000.test_case false zero_iterations 42 "template recursion"
       (fun _ : Z => Aborts) (0, []) = Completed 0 out) /\
  (exists out,
     Part000.test_case false wrapped 42 "template recursion"
       (fun _ : Z => Aborts) (0, []) = Completed 0 out).
Proof.
  intros zero_iterations wrapped.
  assert (Part000.number_of_iterations zero_iterations <= 0) as H0
    by (vm_compute; discriminate).
  assert (Part000.number_of_iterations wrapped <= 0) as H1
    by (vm_compute; discriminate).
  split; [exact H0|]. split; [exact H1|]. split; eexists.
  - exact (test_case_without_trials zero_iterations H0 Z false 42
             "template recursion" _ 0 []).
  - exact (test_case_without_trials wrapped H1 Z false 42
             "template recursion" _ 0 []).
Defined.

(** X10.  The conclusion of a block of noexcept_benchmark_main.cpp in
    terms of its four trials: it declares noexcept faster exactly when
    noexcept won every trial, implicit faster exactly when implicit won
    every trial, and is "unclear" in every other case, so as soon as
    one trial is a tie or the wins are shared. *)
Theorem conclusion_by_trials (ts : list trial)
    (Hfour : Z.of_nat (length ts) = Main.max_number_of_times) :
  let r := fold_left Main.update_test_result ts Main.test_result_init in
  let sn := Main.sum_of_durations_noexcept r in
  let si := Main.sum_of_durations_implicit r in
  (forallb noexcept_wins ts = true ->
   Main.print_conclusion r =
     says_noexcept_faster (Main.divide_by_positive si sn)) /\
  (forallb implicit_wins ts = true ->
   Main.print_conclusion r =
     says_implicit_faster (Main.divide_by_positive sn si)) /\
  (forallb noexcept_wins ts = false -> forallb implicit_wins ts = false ->
   Main.print_conclusion r = says_unclear) /\
  (existsb is_tie ts = true -> Main.print_conclusion r = says_unclear).
Proof.
  intros r sn si.
  assert (Z.of_nat (length ts) < 2 ^ 32) as Hfew
    by (rewrite Hfour; reflexivity).
  destruct (main_counters_exact ts Hfew) as [Xn Xi]. fold r in Xn, Xi.
  pose proof (count_of_all noexcept_wins ts) as An.
  pose proof (count_of_all implicit_wins ts) as Ai.
  pose proof (wins_and_ties ts) as W.
  pose proof (count_of_nonneg is_tie ts) as Pt.
  pose proof (count_of_nonneg noexcept_wins ts) as Pn.
  pose proof (count_of_nonneg implicit_wins ts) as Pi.
  assert (forallb noexcept_wins ts = false ->
          forallb implicit_wins ts = false ->
          Main.print_conclusion r = says_unclear) as U.
  { intros Hn Hi. unfold Main.print_conclusion. rewrite Xn, Xi.
    destruct (Z.eqb_spec (count_of noexcept_wins ts)
                         Main.max_number_of_times) as [E|_].
    - rewrite <- Hfour in E. apply An in E. congruence.
    - destruct (Z.eqb_spec (count_of implicit_wins ts)
                           Main.max_number_of_times) as [E|_];
        [|reflexivity].
      rewrite <- Hfour in E. apply Ai in E. congruence. }
  split; [|split; [|split; [exact U|]]].
  - intros H. apply An in H. unfold Main.print_conclusion.
    rewrite Xn, H, Hfour, Z.eqb_refl. reflexivity.
  - intros H. apply Ai in H. unfold Main.print_conclusion.
    rewrite Xn, Xi, H, Hfour, Z.eqb_refl.
    destruct (Z.eqb_spec (count_of noexcept_wins ts)
                         Main.max_number_of_times) as [E|_];
      [|reflexivity].
    unfold Main.max_number_of_times in *. lia.
  - intros H. apply existsb_exists in H. destruct H as [t [Hin Ht]].
    assert (0 < count_of is_tie ts) as Hpos.
    { unfold count_of.
      assert (In t (filter is_tie ts)) as I
        by (apply filter_In; split; assumption).
      destruct (filter is_tie ts); [destruct I | cbn [length]; lia]. }
    apply U.
    + destruct (forallb noexcept_wins ts); [|reflexivity].
      pose proof (proj2 An eq_refl). lia.
    + destruct (forallb implicit_wins ts); [|reflexivity].
      pose proof (proj2 Ai eq_refl). lia.
Qed.

Lemma conclusion_by_trials_witness :
  let ts := scenario ++ [(of_Z 2, of_Z 2)] in
  Z.of_nat (length ts) = Main.max_number_of_times /\
  Main.print_conclusion
    (fold_left Main.update_test_result ts Main.test_result_init)
  = says_unclear.
Proof.
  intros ts. split; [reflexivity|].
  exact (proj2 (proj2 (proj2 (conclusion_by_trials ts eq_refl))) eq_refl).
Defined.

(** ** The whole programs *)

Lemma fold_append_repeat {A B : Type} (x : A) (l : list B) :
  forall out : list A,
    fold_left (fun (out : list A) (_ : B) => out ++ [x]) l out =
    out ++ repeat x (length l).
Proof.
  induction l as [|b l IH]; intros out.
  - cbn. rewrite app_nil_r. reflexivity.
  - cbn [fold_left length repeat]. rewrite IH, <- app_assoc. reflexivity.
Qed.

(** Runs the next block of the goal with what [R] says of a block, and
    splits on how its measurements stopped; a block that is cut short
    ends the program. *)
Ltac run_block R :=
  rewrite R;
  match goal with
  | |- context [measure_until ?mp ?n ?m] =>
      destruct (measure_until mp n m) as [? [?| |]]
  end;
  cbn [fst snd Main.and_then Part000.and_then];
  try (rewrite <- ?app_assoc; reflexivity).

(** X11.  [main] of noexcept_benchmark_main.cpp, in whichever order the
    implementation evaluates the arguments of [std::make_pair], runs
    its four test cases in the order inline, recursive, exported,
    vector reserve, each on the machine the one before left.  When
    every measurement returns, it keeps what the console held and
    appends four blocks, each a header, four pairs of durations and
    one conclusion.  When a measurement does not return, the program
    ends there: the console holds the blocks before, then the header of
    the block and the trials that returned, and no conclusion for it;
    no later test case is run. *)
Theorem main_runs_four_test_cases :
  forall (M : Type) (clock : M -> Z)
         (f1 f2 f3 f4 : M -> measured double M) (w1 w2 w3 w4 : M -> M)
         (e1 e2 : M -> option failure) (o1 o2 o3 o4 : M -> arg_order)
         (N1 N2 N3 N4 : Z) (m : M) (out : list out_item),
    let mp1 := fun m => Main.make_pair (o1 m) f1 f2 m in
    let mp2 := fun m =>
      unless e1 (Main.profile_func_calls clock (o2 m) w1 w2) m in
    let mp3 := fun m =>
      unless e2 (Main.profile_func_calls clock (o3 m) w3 w4) m in
    let mp4 := fun m => Main.make_pair (o4 m) f3 f4 m in
    let h1 := [OStr (nl +++ "[test_inline_func (N = "); OInt N1;
               OStr ")]"; OEndl] in
    let h2 := [OStr (nl +++ "[recursive_func (N = "); OInt N2;
               OStr ")]"; OEndl] in
    let h3 := [OStr (nl +++ "[exported_func(false) calls (N = ");
               OInt N3; OStr ")]"; OEndl] in
    let h4 := [OStr (nl +++ "[test_vector_reserve (N = "); OInt N4;
               OStr ")]"; OEndl] in
    let t1 := measure_until mp1 4 m in
    Main.main clock f1 f2 f3 f4 w1 w2 w3 w4 e1 e2 o1 o2 o3 o4
              N1 N2 N3 N4 (m, out) =
    match snd t1 with
    | AllReturned m1 =>
        let t2 := measure_until mp2 4 m1 in
        match snd t2 with
        | AllReturned m2 =>
            let t3 := measure_until mp3 4 m2 in
            match snd t3 with
            | AllReturned m3 =>
                let t4 := measure_until mp4 4 m3 in
                match snd t4 with
                | AllReturned m4 =>
                    Completed m4
                      (out ++ main_block h1 (fst t1)
                           ++ main_block h2 (fst t2)
                           ++ main_block h3 (fst t3)
                           ++ main_block h4 (fst t4))
                | _ =>
                    Terminated
                      (out ++ main_block h1 (fst t1)
                           ++ main_block h2 (fst t2)
                           ++ main_block h3 (fst t3)
                           ++ main_block_cut h4 (fst t4))
                end
            | _ =>
                Terminated
                  (out ++ main_block h1 (fst t1)
                       ++ main_block h2 (fst t2)
                       ++ main_block_cut h3 (fst t3))
            end
        | _ =>
            Terminated
              (out ++ main_block h1 (fst t1) ++ main_block_cut h2 (fst t2))
        end
    | _ => Terminated (out ++ main_block_cut h1 (fst t1))
    end.
Proof.
  cbv zeta.
  intros M clock f1 f2 f3 f4 w1 w2 w3 w4 e1 e2 o1 o2 o3 o4 N1 N2 N3 N4
         m out.
  assert (forall header (mp : M -> measured (double * double) M) m out,
            Main.test_case header mp (m, out) =
            match snd (measure_until mp 4 m) with
            | AllReturned m' =>
                Completed m'
                  (out ++ main_block header (fst (measure_until mp 4 m)))
            | _ =>
                Terminated
                  (out ++ main_block_cut header
                            (fst (measure_until mp 4 m)))
            end) as R
    by (intros; apply main_test_case_run).
  unfold Main.main.
  run_block R. run_block R. run_block R. run_block R.
Qed.

(** X12.  [main] of part_000 runs its five test cases in the order
    inline, exported, recursive, template, vector reserve, each with
    [number_of_iterations] trials (none when that is not positive) and
    on the machine the one before left.  When every measurement
    returns, it keeps what the console held and appends the five
    blocks, each a header, its trials and its summary, and then a line
    of 80 equals signs.  When a measurement does not return, the
    program ends there: the console holds the blocks before, then the
    header of the block and the trials that returned, with their
    summary only after an exception and if the implementation unwinds;
    no later test case is run and the line of equals signs is not
    printed. *)
Theorem part000_main_runs_five_test_cases :
  forall (M : Type) (clock : M -> Z) (unwinds : bool) (b : build)
         (f1 f2 f3 f4 : M -> measured double M)
         (w1 w2 w3 w4 w5 w6 : M -> M) (e1 e2 e3 : M -> option failure)
         (N1 N2 N3 N4 N5 : Z) (m : M) (out : list out_item),
    let n := Z.to_nat (Part000.number_of_iterations b) in
    let mp1 := Part000.assign_durations f1 f2 in
    let mp2 := unless e1 (Part000.profile_func_calls clock w1 w2) in
    let mp3 := unless e2 (Part000.profile_func_calls clock w3 w4) in
    let mp4 := unless e3 (Part000.profile_func_calls clock w5 w6) in
    let mp5 := Part000.assign_durations f3 f4 in
    let block1 := part000_block N1 "inline function calls" in
    let block2 := part000_block N2 "exported library function calls" in
    let block3 := part000_block N3 "recursive function calls" in
    let block4 := part000_block N4 "template recursion" in
    let block5 := part000_block N5 "std::vector<my_string> reserve" in
    let cut := fun (how : stopped M) =>
      part000_block_cut (destroys unwinds how) in
    let t1 := measure_until mp1 n m in
    Part000.main clock unwinds b f1 f2 f3 f4 w1 w2 w3 w4 w5 w6 e1 e2 e3
                 N1 N2 N3 N4 N5 (m, out) =
    match snd t1 with
    | AllReturned m1 =>
        let t2 := measure_until mp2 n m1 in
        match snd t2 with
        | AllReturned m2 =>
            let t3 := measure_until mp3 n m2 in
            match snd t3 with
            | AllReturned m3 =>
                let t4 := measure_until mp4 n m3 in
                match snd t4 with
                | AllReturned m4 =>
                    let t5 := measure_until mp5 n m4 in
                    match snd t5 with
                    | AllReturned m5 =>
                        Completed m5
                          (out ++ block1 (fst t1) ++ block2 (fst t2)
                               ++ block3 (fst t3) ++ block4 (fst t4)
                               ++ block5 (fst t5)
                               ++ repeat (OStr "=") 80 ++ [OEndl])
                    | how =>
                        Terminated
                          (out ++ block1 (fst t1) ++ block2 (fst t2)
                               ++ block3 (fst t3) ++ block4 (fst t4)
                               ++ cut how N5
                                    "std::vector<my_string> reserve"%string
                                    (fst t5))
                    end
                | how =>
                    Terminated
                      (out ++ block1 (fst t1) ++ block2 (fst t2)
                           ++ block3 (fst t3)
                           ++ cut how N4 "template recursion"%string (fst t4))
                end
            | how =>
                Terminated
                  (out ++ block1 (fst t1) ++ block2 (fst t2)
                       ++ cut how N3 "recursive function calls"%string (fst t3))
            end
        | how =>
            Terminated
              (out ++ block1 (fst t1)
                   ++ cut how N2 "exported library function calls"%string
                        (fst t2))
        end
    | how => Terminated (out ++ cut how N1 "inline function calls"%string (fst t1))
    end.
Proof.
  cbv zeta.
  intros M clock unwinds b f1 f2 f3 f4 w1 w2 w3 w4 w5 w6 e1 e2 e3
         N1 N2 N3 N4 N5 m out.
  pose proof (fun N name (mp : M -> measured Part000.durations_type M)
                  m out =>
                part000_test_case_run unwinds b N name mp m out) as R.
  cbv zeta in R.
  unfold Part000.main.
  run_block R. run_block R. run_block R. run_block R. run_block R.
  rewrite for_loop_from_0, fold_append_repeat, length_seq.
  change (Z.to_nat 80) with 80%nat.
  rewrite <- !app_assoc. reflexivity.
Qed.

(** ** The sign of a measurement *)

Lemma profile_func_call_value {M : Type} (clock : M -> Z) (func : M -> M)
    (m : M) :
  let m1 := Nat.iter 1000 func m in
  let m2 := Nat.iter 1000 func m1 in
  let m3 := Nat.iter 1000 func m2 in
  profile_func_call clock func m =
  (div (mul (div (of_Z (Z.min (Z.min (clock m1 - clock m)
                                     (clock m2 - clock m1))
                              (clock m3 - clock m2)))
                 cpu_frequency)
            (of_Z 1000000000))
       (of_Z loopsize),
   Nat.iter 3000 func m).
Proof.
  cbv zeta. unfold profile_func_call, measure. rewrite for_loop_from_0.
  change (Z.to_nat minimum_of) with 3%nat.
  change loopsize with (Z.of_nat 1000) at 1 2 3.
  cbn [seq fold_left]. rewrite !sample_iter. cbn [keep_smallest].
  rewrite !iter_add. reflexivity.
Qed.

Lemma clock_after_iter {M : Type} (clock : M -> Z) (func : M -> M) :
  (forall m, clock m <= clock (func m)) ->
  forall (n : nat) (m : M), clock m <= clock (Nat.iter n func m).
Proof.
  intros Hmono. induction n as [|n IH]; intros m; [cbn; lia|].
  cbn [Nat.iter nat_rect]. specialize (IH m).
  specialize (Hmono (Nat.iter n func m)). unfold Nat.iter in *. lia.
Qed.

Lemma div_nonneg_finite (x : double) (my : positive) (ey : Z) :
  nonneg x = true -> nonneg (div x (S754_finite false my ey)) = true.
Proof.
  intros Hx.
  destruct (div_nonneg x (S754_finite false my ey) Hx eq_refl)
    as [[_ [E _]]|H]; [discriminate E | exact H].
Qed.

(** X13.  When the cycle counter never goes back while the measured
    function runs, the duration [profile_func_call] returns is not
    negative and not a NaN, with the stopwatch taking the smallest of
    its three samples; the function has then run 3000 times.
    [profile_func_calls] of part_000 measures the noexcept function
    first and the implicit one on the machine the first measurement
    left, 6000 runs in all, and neither duration is negative. *)
Theorem measured_durations_nonneg (M : Type) (clock : M -> Z)
    (func1 func2 : M -> M)
    (Hmono1 : forall m, clock m <= clock (func1 m))
    (Hmono2 : forall m, clock m <= clock (func2 m)) :
  forall m : M,
    nonneg (fst (profile_func_call clock func1 m)) = true /\
    snd (profile_func_call clock func1 m) = Nat.iter 3000 func1 m /\
    let durations := fst (Part000.profile_func_calls clock func1 func2 m) in
    Part000.duration_noexcept durations
      = fst (profile_func_call clock func1 m) /\
    Part000.duration_implicit durations
      = fst (profile_func_call clock func2 (Nat.iter 3000 func1 m)) /\
    nonneg (Part000.duration_noexcept durations) = true /\
    nonneg (Part000.duration_implicit durations) = true /\
    snd (Part000.profile_func_calls clock func1 func2 m)
      = Nat.iter 3000 func2 (Nat.iter 3000 func1 m).
Proof.
  assert (forall (func : M -> M),
            (forall m, clock m <= clock (func m)) ->
            forall m, nonneg (fst (profile_func_call clock func m)) = true)
    as P.
  { intros func Hmono m.
    pose proof (profile_func_call_value clock func m) as V. cbv zeta in V.
    rewrite V. cbn [fst].
    pose proof (clock_after_iter clock func Hmono 1000 m).
    pose proof (clock_after_iter clock func Hmono 1000
                  (Nat.iter 1000 func m)).
    pose proof (clock_after_iter clock func Hmono 1000
                  (Nat.iter 1000 func (Nat.iter 1000 func m))).
    change (of_Z loopsize) with (S754_finite false 8796093022208000 (-43)).
    change (of_Z 1000000000)
      with (S754_finite false 8388608000000000 (-23)).
    change cpu_frequency with (S754_finite false 7575036860825600 (-21)).
    apply div_nonneg_finite, mul_nonneg, div_nonneg_finite, of_Z_nonneg.
    lia. }
  intros m.
  pose proof (profile_func_call_value clock func1 m) as V1.
  pose proof (profile_func_call_value clock func2 (Nat.iter 3000 func1 m))
    as V2.
  cbv zeta in V1, V2.
  assert (Part000.profile_func_calls clock func1 func2 m =
          ({| Part000.duration_noexcept :=
                fst (profile_func_call clock func1 m);
              Part000.duration_implicit :=
                fst (profile_func_call clock func2
                       (Nat.iter 3000 func1 m)) |},
           Nat.iter 3000 func2 (Nat.iter 3000 func1 m))) as E.
  { unfold Part000.profile_func_calls. rewrite V1, V2. reflexivity. }
  split; [apply P; exact Hmono1|].
  split; [rewrite V1; reflexivity|].
  cbv zeta. rewrite E. cbn [fst snd Part000.duration_noexcept
                            Part000.duration_implicit].
  repeat split; apply P; assumption.
Qed.

Lemma measured_durations_nonneg_witness :
  (forall c : Z, c <= c + 7) /\
  nonneg (fst (profile_func_call (fun c : Z => c) (fun c => c + 7) 0))
  = true.
Proof.
  assert (forall c : Z, c <= c + 7) as H by (intros c; lia).
  split; [exact H|].
  exact (proj1 (measured_durations_nonneg Z (fun c => c) (fun c => c + 7)
                  (fun c => c + 7) H H 0)).
Defined.
